(** * Storm-track extraction in the IBTrACS tutorial notebook

    A shallow embedding of the code cells of
    [Tropycal Tutorials/IBTrACS_Tutorial/notebooks/Using IBTrACS.ipynb]
    that select the records of one storm from the CSV table, from the
    shapefile table and from the NetCDF arrays, together with the properties
    the specification states about them.

    Numbers are binary64 floats ([PrimFloat.float]), so that [NaN] and the
    [-9999] marker behave as they do under [np.isnan] and [!=]. *)

From Stdlib Require Import ZArith List String Ascii Bool Lia Arith Sorted.
From Stdlib Require Import Floats.
Import ListNotations.

Set Implicit Arguments.

(* ================================================================== *)
(** ** Outcomes of a run of cells *)

(** Failures that reach the caller as a value of a known type.  The Python
    exceptions are the ones the modelled cells can raise; [StormNotFound] is
    the failure the specification names, which no cell of the notebook
    constructs. *)
Inductive failure : Type :=
| StormNotFound
| IndexError
| ValueError
| OverflowError.

(** [Exited] is the effect of [exit()]: the run of the host ends and nothing
    is handed back. *)
Inductive outcome (A : Type) : Type :=
| Returned (a : A)
| Failed (e : failure)
| Exited.

Arguments Returned {A} a.
Arguments Failed {A} e.
Arguments Exited {A}.

Definition bind {A B : Type} (m : outcome A) (k : A -> outcome B) : outcome B :=
  match m with
  | Returned a => k a
  | Failed e => Failed e
  | Exited => Exited
  end.

Declare Scope outcome_scope.
Delimit Scope outcome_scope with outcome.
Notation "x <- m ;; k" := (bind m (fun x => k))
  (at level 61, m at next level, right associativity) : outcome_scope.
Notation "m ;;; k" := (bind m (fun _ => k))
  (at level 61, right associativity) : outcome_scope.

Definition of_option {A : Type} (e : failure) (o : option A) : outcome A :=
  match o with
  | Some a => Returned a
  | None => Failed e
  end.

(** A typed result is anything but the end of the host. *)
Definition typed_result {A : Type} (o : outcome A) : Prop :=
  match o with
  | Exited => False
  | _ => True
  end.

(* ================================================================== *)
(** ** [str.strip] and the decoding of a storm identifier *)

Module Str.

(** [str.isspace] on the code points below 256. *)
Definition isspace (c : ascii) : bool :=
  let n := nat_of_ascii c in
  ((9 <=? n) && (n <=? 13)) || ((28 <=? n) && (n <=? 32))
  || (n =? 133) || (n =? 160).

Definition is_empty (s : string) : bool :=
  match s with
  | EmptyString => true
  | String _ _ => false
  end.

Fixpoint lstrip (s : string) : string :=
  match s with
  | EmptyString => EmptyString
  | String c r => if isspace c then lstrip r else s
  end.

Fixpoint rstrip (s : string) : string :=
  match s with
  | EmptyString => EmptyString
  | String c r =>
      let r' := rstrip r in
      if isspace c && is_empty r' then EmptyString else String c r'
  end.

(** [s.strip()]: the index from the left moves first, then the one from the
    right. *)
Definition strip (s : string) : string := rstrip (lstrip s).

(** [''.join(cells)]. *)
Definition join (cells : list string) : string := String.concat "" cells.

Definition first_char (s : string) : option ascii :=
  match s with
  | EmptyString => None
  | String c _ => Some c
  end.

Fixpoint last_char (s : string) : option ascii :=
  match s with
  | EmptyString => None
  | String c EmptyString => Some c
  | String _ r => last_char r
  end.

(** A string carries padding when it starts or ends with a whitespace
    character. *)
Definition padded (s : string) : Prop :=
  (exists c, first_char s = Some c /\ isspace c = true) \/
  (exists c, last_char s = Some c /\ isspace c = true).

End Str.

(** One row of the [sid] variable after [sid.astype(str)]: a sequence of
    [str] cells, one per character position. *)
Definition sid_row : Type := list string.

(** [''.join(sid.astype(str)).strip()] *)
Definition decode_sid (sid : sid_row) : string := Str.strip (Str.join sid).

(* ================================================================== *)
(** ** The NetCDF variables and array indexing *)

(** An array read with [variables[...][:]] is kept as the list of its
    entries along the first axis, each entry flattened: a row of the
    [(storm, date_time)] variables of the file, a one-element row for a
    one-dimensional array. *)
Definition ndarray (A : Type) : Type := list (list A).

Record NcFile : Type := mkNc {
  var_sid : list sid_row;
  var_lat : ndarray float;
  var_lon : ndarray float;
  var_wmo_wind : ndarray float;
  var_wmo_pres : ndarray float;
  var_time : ndarray float
}.

(** [np.where(mask)[0]]: the positions that hold [True], ascending. *)
Fixpoint where_from (k : nat) (mask : list bool) : list nat :=
  match mask with
  | [] => []
  | b :: rest =>
      if b then k :: where_from (S k) rest else where_from (S k) rest
  end.

Definition np_where (mask : list bool) : list nat := where_from 0 mask.

(** [np.array(storm_ids) == target_sid] *)
Definition eq_mask (storm_ids : list string) (target_sid : string) : list bool :=
  map (fun s => String.eqb s target_sid) storm_ids.

(** [a[indices]] with an integer index array: the entries at these
    positions, [IndexError] (here [None]) when one is out of bounds. *)
Fixpoint take_rows {A : Type} (a : ndarray A) (indices : list nat)
  : option (ndarray A) :=
  match indices with
  | [] => Some []
  | i :: rest =>
      match nth_error a i, take_rows a rest with
      | Some r, Some rs => Some (r :: rs)
      | _, _ => None
      end
  end.

(** [.flatten()] *)
Definition flatten {A : Type} (a : ndarray A) : list A := List.concat a.

(** [target_sid in storm_ids] *)
Definition contains (storm_ids : list string) (target_sid : string) : bool :=
  existsb (fun s => String.eqb s target_sid) storm_ids.

(* ================================================================== *)
(** ** The NetCDF section of the notebook *)

Module Nc.

Local Open Scope outcome_scope.

(** The tuple [(lat, lon, wind, pres, t)] of the comprehension that builds
    [valid_data]. *)
Record sample : Type := mkSample {
  lat : float;
  lon : float;
  wind : float;
  pres : float;
  t : float
}.

(** The five [filtered_*] variables of the notebook. *)
Record filtered : Type := mkFiltered {
  filtered_lats : list float;
  filtered_lons : list float;
  filtered_winds : list float;
  filtered_pressures : list float;
  filtered_times : list float
}.

(** [zip] of five sequences stops with the shortest one. *)
Fixpoint zip5 (a b c d e : list float) : list sample :=
  match a, b, c, d, e with
  | x :: a', y :: b', z :: c', u :: d', v :: e' =>
      mkSample x y z u v :: zip5 a' b' c' d' e'
  | _, _, _, _, _ => []
  end.

(** [zip] of the unpacked [valid_data]: one tuple per field. *)
Definition unzip5 (l : list sample) : filtered :=
  mkFiltered (map lat l) (map lon l) (map wind l) (map pres l) (map t l).

Definition missing : float := (-9999)%float.

(** [not np.isnan(lat) and not np.isnan(lon) and wind != -9999 and
    pres != -9999] *)
Definition keep (s : sample) : bool :=
  negb (PrimFloat.is_nan (lat s)) && negb (PrimFloat.is_nan (lon s))
  && negb (PrimFloat.eqb (wind s) missing)
  && negb (PrimFloat.eqb (pres s) missing).

(** Line 656 of the notebook file:
    [storm_ids = [''.join(sid.astype(str)).strip() for sid in storm_ids]]. *)
Definition storm_ids (nc : NcFile) : list string :=
  map decode_sid (var_sid nc).

(** Lines 685 to 689: [if target_sid in storm_ids: ... else: ... exit()]. *)
Definition verify (nc : NcFile) (target_sid : string) : outcome unit :=
  if contains (storm_ids nc) target_sid then Returned tt else Exited.

(** Line 714:
    [storm_indices = np.where(np.array(storm_ids) == target_sid)[0]]. *)
Definition storm_indices (nc : NcFile) (target_sid : string) : list nat :=
  np_where (eq_mask (storm_ids nc) target_sid).

Definition select {A : Type} (a : ndarray A) (indices : list nat)
  : outcome (list A) :=
  rows <- of_option IndexError (take_rows a indices) ;;
  Returned (flatten rows).

(** Lines 718 to 722: the five [x[storm_indices].flatten()] assignments,
    in the order of the cell. *)
Definition extract_filtered (nc : NcFile) (target_sid : string)
  : outcome filtered :=
  let idx := storm_indices nc target_sid in
  lats <- select (var_lat nc) idx ;;
  lons <- select (var_lon nc) idx ;;
  winds <- select (var_wmo_wind nc) idx ;;
  pressures <- select (var_wmo_pres nc) idx ;;
  times <- select (var_time nc) idx ;;
  Returned (mkFiltered lats lons winds pressures times).

(** The candidates the comprehension of line 743 runs over. *)
Definition zipped (f : filtered) : list sample :=
  zip5 (filtered_lats f) (filtered_lons f) (filtered_winds f)
       (filtered_pressures f) (filtered_times f).

(** Line 743: the comprehension that builds [valid_data]. *)
Definition valid_data (f : filtered) : list sample :=
  filter keep (zipped f).

(** Lines 743 to 746 on the variables they read and rebind: [valid_data]
    and, under [if valid_data:], the five [filtered_*] names. *)
Definition refilter (f : filtered) : list sample * filtered :=
  let v := valid_data f in
  match v with
  | [] => (v, f)
  | _ :: _ => (v, unzip5 v)
  end.

(** The cells from the decoding of the identifiers to the filter, in
    sequence: the Track is [valid_data]. *)
Definition extract (nc : NcFile) (target_sid : string)
  : outcome (list sample) :=
  verify nc target_sid ;;;
  f <- extract_filtered nc target_sid ;;
  Returned (fst (refilter f)).

(** The candidates of a run, when the selection of line 714 to 722
    completes. *)
Definition candidates (nc : NcFile) (target_sid : string)
  : outcome (list sample) :=
  verify nc target_sid ;;;
  f <- extract_filtered nc target_sid ;;
  Returned (zipped f).

(** The loader's contract: every variable has one row per storm, and all
    rows have the same width [w]. *)
Definition rows_ok (n w : nat) (a : ndarray float) : Prop :=
  List.length a = n /\ Forall (fun r => List.length r = w) a.

Definition shape_ok (w : nat) (nc : NcFile) : Prop :=
  let n := List.length (var_sid nc) in
  rows_ok n w (var_lat nc) /\ rows_ok n w (var_lon nc) /\
  rows_ok n w (var_wmo_wind nc) /\ rows_ok n w (var_wmo_pres nc) /\
  rows_ok n w (var_time nc).

(** The sample at storm [i], column [j] of the source arrays. *)
Definition cell {A : Type} (a : ndarray A) (i j : nat) : option A :=
  match nth_error a i with
  | Some r => nth_error r j
  | None => None
  end.

Definition picked (a : ndarray float) (i : nat) (r : list float) : Prop :=
  nth_error a i = Some r.

Definition at_position (nc : NcFile) (i j : nat) (s : sample) : Prop :=
  cell (var_lat nc) i j = Some (lat s) /\
  cell (var_lon nc) i j = Some (lon s) /\
  cell (var_wmo_wind nc) i j = Some (wind s) /\
  cell (var_wmo_pres nc) i j = Some (pres s) /\
  cell (var_time nc) i j = Some (t s).

End Nc.

(* ================================================================== *)
(** ** The CSV and shapefile sections of the notebook *)

Module Csv.

(** A row of [ibtracs_data], with the columns the notebook and the
    specification name. *)
Record row : Type := mkRow {
  SID : string;
  SEASON : Z;
  NAME : string;
  ISO_TIME : string;
  LAT : float;
  LON : float;
  WMO_WIND : float;
  WMO_PRES : float;
  STORM_SPEED : float
}.

(** Line 138, [ibtracs_data[ibtracs_data['NAME'] == name]]: the rows under
    a boolean mask, in the order of the table. *)
Definition extract (ibtracs_data : list row) (name : string) : list row :=
  filter (fun r => String.eqb (NAME r) name) ibtracs_data.

(** [ibtracs_data[ibtracs_data['SEASON'] == season]] *)
Definition by_season (ibtracs_data : list row) (season : Z) : list row :=
  filter (fun r => Z.eqb (SEASON r) season) ibtracs_data.

(** The cell as a run: a boolean-mask selection always completes. *)
Definition run (ibtracs_data : list row) (name : string) : outcome (list row) :=
  Returned (extract ibtracs_data name).

(** The four missing-value tests of the NetCDF section, read on the columns
    of a CSV row.  No cell of the CSV section applies them. *)
Definition keep (r : row) : bool :=
  negb (PrimFloat.is_nan (LAT r)) && negb (PrimFloat.is_nan (LON r))
  && negb (PrimFloat.eqb (WMO_WIND r) Nc.missing)
  && negb (PrimFloat.eqb (WMO_PRES r) Nc.missing).

End Csv.

Module Shp.

(** A row of [ibtracs_gdf]: the attribute columns and the line geometry. *)
Record row : Type := mkRow {
  NAME : string;
  ISO_TIME : string;
  LAT : float;
  LON : float;
  WMO_WIND : float;
  WMO_PRES : float;
  geometry : list (float * float)
}.

(** Line 367, [ibtracs_gdf[ibtracs_gdf['NAME'] == name]]. *)
Definition extract (ibtracs_gdf : list row) (name : string) : list row :=
  filter (fun r => String.eqb (NAME r) name) ibtracs_gdf.

Definition run (ibtracs_gdf : list row) (name : string) : outcome (list row) :=
  Returned (extract ibtracs_gdf name).

(** The missing-value tests read on a shapefile row; not applied by any
    cell of the shapefile section. *)
Definition keep (r : row) : bool :=
  negb (PrimFloat.is_nan (LAT r)) && negb (PrimFloat.is_nan (LON r))
  && negb (PrimFloat.eqb (WMO_WIND r) Nc.missing)
  && negb (PrimFloat.eqb (WMO_PRES r) Nc.missing).

End Shp.

(* ================================================================== *)
(** ** Order-preserving selections *)

(** [subseq s l]: [s] is obtained from [l] by deleting elements. *)
Inductive subseq {A : Type} : list A -> list A -> Prop :=
| subseq_nil : subseq [] []
| subseq_keep x s l : subseq s l -> subseq (x :: s) (x :: l)
| subseq_drop x s l : subseq s l -> subseq s (x :: l).

(* ================================================================== *)
(** ** [datetime] and [timedelta] of the Python standard library

    Line 797 computes [start_date + timedelta(days=t)].  The two library
    operations are modelled after CPython's [datetime] module: the calendar
    on proleptic Gregorian ordinals (day 1 is 0001-01-01), a [timedelta] as
    a whole number of microseconds, and the constructor's treatment of a
    float argument as in the C implementation ([accum] and the rounding of
    the left-over fraction in [delta_new]). *)

Module Datetime.

Local Open Scope Z_scope.
Local Open Scope outcome_scope.

Definition is_leap (year : Z) : bool :=
  (year mod 4 =? 0) && (negb (year mod 100 =? 0) || (year mod 400 =? 0)).

Definition days_before_year (year : Z) : Z :=
  let y := year - 1 in
  y * 365 + y / 4 - y / 100 + y / 400.

Definition DAYS_IN_MONTH : list Z :=
  [-1; 31; 28; 31; 30; 31; 30; 31; 31; 30; 31; 30; 31].

Definition DAYS_BEFORE_MONTH : list Z :=
  [-1; 0; 31; 59; 90; 120; 151; 181; 212; 243; 273; 304; 334].

Definition table (l : list Z) (month : Z) : Z := nth (Z.to_nat month) l 0.

Definition days_before_month (year month : Z) : Z :=
  table DAYS_BEFORE_MONTH month
  + (if (2 <? month) && is_leap year then 1 else 0).

Definition ymd2ord (year month day : Z) : Z :=
  days_before_year year + days_before_month year month + day.

Definition DI400Y : Z := 146097.
Definition DI100Y : Z := 36524.
Definition DI4Y : Z := 1461.
Definition MAXORDINAL : Z := 3652059.

Definition ord2ymd (ordinal : Z) : Z * Z * Z :=
  let n := ordinal - 1 in
  let n400 := n / DI400Y in
  let n := n mod DI400Y in
  let year := n400 * 400 + 1 in
  let n100 := n / DI100Y in
  let n := n mod DI100Y in
  let n4 := n / DI4Y in
  let n := n mod DI4Y in
  let n1 := n / 365 in
  let n := n mod 365 in
  let year := year + n100 * 100 + n4 * 4 + n1 in
  if (n1 =? 4) || (n100 =? 4) then (year - 1, 12, 31)
  else
    let leapyear := (n1 =? 3) && (negb (n4 =? 24) || (n100 =? 3)) in
    let month := Z.shiftr (n + 50) 5 in
    let preceding :=
      table DAYS_BEFORE_MONTH month
      + (if (2 <? month) && leapyear then 1 else 0) in
    if n <? preceding then
      let month := month - 1 in
      let preceding :=
        preceding
        - (table DAYS_IN_MONTH month
           + (if (month =? 2) && leapyear then 1 else 0)) in
      (year, month, n - preceding + 1)
    else (year, month, n - preceding + 1).

Record datetime : Type := mkDatetime {
  year : Z;
  month : Z;
  day : Z;
  hour : Z;
  minute : Z;
  second : Z;
  microsecond : Z
}.

(** [datetime(y, m, d)]: the time fields default to zero. *)
Definition date_at (y m d : Z) : datetime := mkDatetime y m d 0 0 0 0.

Definition toordinal (d : datetime) : Z := ymd2ord (year d) (month d) (day d).

Definition US_PER_SECOND : Z := 1000000.
Definition US_PER_DAY : Z := 86400000000.

(** [math.modf] followed by [int] of the whole part: the whole part toward
    zero and the fraction with the sign of the argument.  A [NaN] cannot be
    converted ([ValueError]), an infinity neither ([OverflowError]). *)
Definition modf (x : float) : outcome (Z * float) :=
  match Prim2SF x with
  | S754_nan => Failed ValueError
  | S754_infinity _ => Failed OverflowError
  | S754_zero s => Returned (0, if s then neg_zero else zero)
  | S754_finite s m e =>
      let whole :=
        if 0 <=? e then Z.shiftl (Zpos m) e else Z.shiftr (Zpos m) (- e) in
      let rest := if 0 <=? e then 0 else Z.land (Zpos m) (Z.ones (- e)) in
      let frac :=
        match rest with
        | Zpos p => SF2Prim (S754_finite s p e)
        | _ => if s then neg_zero else zero
        end in
      Returned (if s then - whole else whole, frac)
  end.

(** The rounding of the left-over fraction of a microsecond: to the nearest
    whole, a tie to the side that makes the sum [x] even. *)
Definition round_leftover (x : Z) (leftover : float) : Z :=
  let away := if PrimFloat.ltb leftover 0 then -1 else 1 in
  let a := PrimFloat.abs leftover in
  if PrimFloat.eqb leftover 0 then 0
  else if PrimFloat.ltb a 0.5 then 0
  else if PrimFloat.eqb a 0.5 then (if Z.odd x then away else 0)
  else away.

(** A [timedelta] is kept as its total number of microseconds; its [days]
    field is the quotient by a day. *)
Record timedelta : Type := mkDelta { total_us : Z }.

Definition td_days (d : timedelta) : Z := total_us d / US_PER_DAY.

(** [timedelta(days=t)] for a float [t]. *)
Definition timedelta_days (t : float) : outcome timedelta :=
  p <- modf t ;;
  let x := fst p * US_PER_DAY in
  y <- (if PrimFloat.eqb (snd p) 0 then Returned x
        else
          q <- modf (86400000000 * snd p)%float ;;
          let x' := x + fst q in
          Returned (x' + round_leftover x' (snd q))) ;;
  let d := mkDelta y in
  if (-999999999 <=? td_days d) && (td_days d <=? 999999999)
  then Returned d else Failed OverflowError.

(** [datetime.__add__] *)
Definition add (d : datetime) (other : timedelta) : outcome datetime :=
  let own :=
    toordinal d * US_PER_DAY
    + (((hour d * 60 + minute d) * 60 + second d) * US_PER_SECOND
       + microsecond d) in
  let us := own + total_us other in
  let days := us / US_PER_DAY in
  let rem_us := us mod US_PER_DAY in
  let seconds := rem_us / US_PER_SECOND in
  let hour := seconds / 3600 in
  let rem := seconds mod 3600 in
  if (0 <? days) && (days <=? MAXORDINAL) then
    let '(y, m, dd) := ord2ymd days in
    Returned (mkDatetime y m dd hour (rem / 60) (rem mod 60)
                         (rem_us mod US_PER_SECOND))
  else Failed OverflowError.

(** [fromordinal] at midnight. *)
Definition fromordinal (n : Z) : datetime :=
  let '(y, m, d) := ord2ymd n in date_at y m d.

(** Line 796: [start_date = datetime(1858, 11, 17)]. *)
Definition start_date : datetime := date_at 1858 11 17.

(** [start_date + timedelta(days=t)] *)
Definition to_date (t : float) : outcome datetime :=
  d <- timedelta_days t ;; add start_date d.

(** Line 797, [filtered_dates = [start_date + timedelta(days=t) for t in
    filtered_times]]: the first element that cannot be converted ends the
    comprehension. *)
Fixpoint filtered_dates (filtered_times : list float)
  : outcome (list datetime) :=
  match filtered_times with
  | [] => Returned []
  | t :: rest =>
      d <- to_date t ;;
      ds <- filtered_dates rest ;;
      Returned (d :: ds)
  end.

(** The last step of [ord2ymd] on its own: month and day of the [n]-th day
    (from 0) of a year, used to state facts about it. *)
Definition month_day (n : Z) (leapyear : bool) : Z * Z :=
  let month := Z.shiftr (n + 50) 5 in
  let preceding :=
    table DAYS_BEFORE_MONTH month
    + (if (2 <? month) && leapyear then 1 else 0) in
  if n <? preceding then
    let month := month - 1 in
    let preceding :=
      preceding
      - (table DAYS_IN_MONTH month
         + (if (month =? 2) && leapyear then 1 else 0)) in
    (month, n - preceding + 1)
  else (month, n - preceding + 1).

(** The check run over the days of a year. *)
Definition month_day_check (leapyear : bool) (n : nat) : bool :=
  let '(m, d) := month_day (Z.of_nat n) leapyear in
  (table DAYS_BEFORE_MONTH m + (if (2 <? m) && leapyear then 1 else 0) + d
   =? Z.of_nat n + 1) && (1 <=? m) && (m <=? 12).

End Datetime.


(** [has_value t n]: the float [t] is exactly the whole number [n], read
    off its sign, mantissa and exponent. *)
Definition has_value (t : float) (n : Z) : Prop :=
  match Prim2SF t with
  | S754_zero _ => n = 0%Z
  | S754_finite s m e =>
      let a := (if s then - n else n)%Z in
      if (0 <=? e)%Z then a = (Zpos m * 2 ^ e)%Z
      else Zpos m = (a * 2 ^ (- e))%Z
  | _ => False
  end.

(* ================================================================== *)
(** ** Sample sources *)

Module Sample.

Local Open Scope float_scope.

(** The cells of a fixed-width identifier, one character each. *)
Definition cells (s : string) : sid_row :=
  map (fun c => String c EmptyString) (list_ascii_of_string s).

(** Three storms with two time steps each; the second identifier carries a
    trailing blank of padding. *)
Definition nc : NcFile :=
  mkNc [cells "2012166N09269"; cells "2012166N09269 "; cells "1999001N10200"]
       [[9; 9.5]; [10; nan]; [20; 21]]
       [[-91; -91.5]; [-92; -92.5]; [100; 101]]
       [[-9999; 42]; [45; 50]; [30; 30]]
       [[1004; 1002]; [1000; -9999]; [990; 990]]
       [[56092; 56092.25]; [56092.5; 56092.75]; [51179; 51179.25]].

(** One storm whose two time steps are stored latest first. *)
Definition nc_unordered : NcFile :=
  mkNc [cells "2012166N09269"]
       [[9; 9.5]] [[-91; -91.5]] [[40; 42]] [[1004; 1002]] [[2; 1]].

(** One storm without a usable wind report. *)
Definition nc_no_wind : NcFile :=
  mkNc [cells "2012166N09269"]
       [[9; 9.5]] [[-91; -91.5]] [[-9999; -9999]] [[1004; 1002]]
       [[56092; 56092.25]].

Definition phoebe_valid : Csv.row :=
  Csv.mkRow "1989009S12066" 1989 "PHOEBE" "1989-01-09 06:00:00"
            (-12) 66 35 994 8.

Definition phoebe_nan : Csv.row :=
  Csv.mkRow "1989009S12066" 1989 "PHOEBE" "1989-01-09 00:00:00"
            nan 66 (-9999) (-9999) 8.

(** A table whose rows for PHOEBE are not in the order of [ISO_TIME]. *)
Definition ibtracs_data : list Csv.row := [phoebe_valid; phoebe_nan].

Definition shp_nan : Shp.row :=
  Shp.mkRow "PHOEBE" "1989-01-09 00:00:00" nan 66 (-9999) (-9999)
            [(66, -12.5); (65.5, -12)].

Definition ibtracs_gdf : list Shp.row := [shp_nan].

End Sample.

(* ================================================================== *)
(** ** The cells around the extraction *)

(** [blank s]: every character of [s] is whitespace. *)
Fixpoint blank (s : string) : bool :=
  match s with
  | EmptyString => true
  | String c r => Str.isspace c && blank r
  end.

(** The samples of storm row [i]: the entries of the five variables in
    that row, column by column. *)
Definition row_samples (nc : NcFile) (i : nat) : list Nc.sample :=
  Nc.zip5 (nth i (var_lat nc) []) (nth i (var_lon nc) [])
          (nth i (var_wmo_wind nc) []) (nth i (var_wmo_pres nc) [])
          (nth i (var_time nc) []).

Module Plot.

Local Open Scope outcome_scope.

(** What the cell of lines 743 to 769 hands to [folium]: the centre of the
    map, the location of each circle marker in the order they are added,
    and the vertices of the polyline. *)
Record track_map : Type := mkMap {
  location : float * float;
  markers : list (float * float);
  polyline : list (float * float)
}.

(** Lines 752 to 760: one [CircleMarker] per pair, added in turn. *)
Definition add_markers (points : list (float * float))
  : list (float * float) :=
  fold_left (fun added p => added ++ [p]) points [].

Section Map.

(** [np.mean], taken as given. *)
Variable np_mean : list float -> float.

(** Lines 743 to 769: under [if valid_data:] the names are rebound and the
    map is built from them; otherwise the cell prints a message and builds
    nothing. *)
Definition storm_map (f : Nc.filtered) : option track_map :=
  match Nc.refilter f with
  | ([], _) => None
  | (_ :: _, f') =>
      let lats := Nc.filtered_lats f' in
      let lons := Nc.filtered_lons f' in
      Some (mkMap (np_mean lats, np_mean lons)
                  (add_markers (combine lats lons))
                  (combine lats lons))
  end.

End Map.

(** Lines 743 to 746 followed by lines 797, 813 and 820: the dates and the
    two series the time-series figure plots against them, read from the
    names as the filter has left them. *)
Definition series (f : Nc.filtered)
  : outcome (list Datetime.datetime * list float * list float) :=
  let f' := snd (Nc.refilter f) in
  dates <- Datetime.filtered_dates (Nc.filtered_times f') ;;
  Returned (dates, Nc.filtered_winds f', Nc.filtered_pressures f').

End Plot.

(* ================================================================== *)
(** ** Facts about order-preserving selections *)

#[local] Hint Constructors subseq : core.

Section Selections.

Variable A : Type.
Variable f : A -> bool.

Lemma filter_subseq (l : list A) : subseq (filter f l) l.
Proof.
  induction l as [|x l IH]; simpl; [constructor|].
  destruct (f x); auto.
Qed.

Lemma filter_idem (l : list A) : filter f (filter f l) = filter f l.
Proof.
  induction l as [|x l IH]; simpl; [reflexivity|].
  destruct (f x) eqn:E; simpl; [rewrite E, IH|]; auto.
Qed.

Lemma filter_all_false (l : list A) :
  Forall (fun x => f x = false) l -> filter f l = [].
Proof.
  induction 1 as [|x l Hx _ IH]; simpl; [reflexivity|].
  now rewrite Hx.
Qed.

Lemma filter_Forall_true (l : list A) : Forall (fun x => f x = true) (filter f l).
Proof.
  apply Forall_forall. intros x Hx. apply filter_In in Hx. tauto.
Qed.

Variable R : A -> A -> Prop.

Lemma filter_StronglySorted (l : list A) :
  StronglySorted R l -> StronglySorted R (filter f l).
Proof.
  induction 1 as [|x l _ IH Hx]; simpl; [constructor|].
  destruct (f x); [|assumption].
  constructor; [assumption|].
  apply Forall_forall. intros y Hy. apply filter_In in Hy.
  rewrite Forall_forall in Hx. now apply Hx.
Qed.

(** In a list sorted in the strong sense, neighbours are in order. *)
Lemma StronglySorted_adjacent (l : list A) :
  StronglySorted R l ->
  forall i a b, nth_error l i = Some a -> nth_error l (S i) = Some b -> R a b.
Proof.
  induction 1 as [|x l _ IH Hx]; intros i a b Ha Hb.
  - destruct i; discriminate.
  - destruct i as [|i]; simpl in Ha, Hb.
    + injection Ha as <-. rewrite Forall_forall in Hx. apply Hx.
      destruct l; [discriminate|]. simpl in Hb. injection Hb as <-. now left.
    + eapply IH; eassumption.
Qed.

End Selections.

(* ================================================================== *)
(** ** Facts about [strip] *)

Module StrFacts.
Import Str.

Lemma lstrip_head (s : string) :
  forall c, first_char (lstrip s) = Some c -> isspace c = false.
Proof.
  induction s as [|a r IH]; simpl; intros c H; [discriminate|].
  destruct (isspace a) eqn:E; [now apply IH|].
  simpl in H. now injection H as <-.
Qed.

Lemma rstrip_first (s : string) :
  forall c, first_char (rstrip s) = Some c -> first_char s = Some c.
Proof.
  destruct s as [|a r]; simpl; intros c H; [discriminate|].
  destruct (isspace a && is_empty (rstrip r)); [discriminate|exact H].
Qed.

Lemma rstrip_last (s : string) :
  forall c, last_char (rstrip s) = Some c -> isspace c = false.
Proof.
  induction s as [|a r IH]; simpl; intros c H; [discriminate|].
  destruct (isspace a) eqn:Ea; simpl in H.
  - destruct (rstrip r) as [|b r'] eqn:Er; simpl in H; [discriminate|].
    now apply IH.
  - destruct (rstrip r) as [|b r'] eqn:Er; simpl in H.
    + now injection H as <-.
    + now apply IH.
Qed.

(** What [strip] returns neither starts nor ends with whitespace. *)
Lemma strip_not_padded (s : string) : ~ padded (strip s).
Proof.
  unfold padded, strip. intros [[c [H1 H2]]|[c [H1 H2]]].
  - apply rstrip_first in H1. apply lstrip_head in H1. congruence.
  - apply rstrip_last in H1. congruence.
Qed.

End StrFacts.

(* ================================================================== *)
(** ** Facts about [np.where] and integer-array indexing *)

Section Indexing.

Lemma contains_In (ids : list string) (target : string) :
  contains ids target = true <-> In target ids.
Proof.
  unfold contains. rewrite existsb_exists. split.
  - intros [s [Hs He]]. apply String.eqb_eq in He. now subst.
  - intros H. exists target. split; [assumption|apply String.eqb_refl].
Qed.

Lemma contains_false (ids : list string) (target : string) :
  contains ids target = false <-> ~ In target ids.
Proof.
  split.
  - intros H Hin. apply contains_In in Hin. congruence.
  - intros H. destruct (contains ids target) eqn:E; [|reflexivity].
    exfalso. apply H. now apply contains_In.
Qed.

Lemma where_from_spec (mask : list bool) :
  forall k i, In i (where_from k mask) ->
    exists j, i = k + j /\ nth_error mask j = Some true.
Proof.
  induction mask as [|b rest IH]; simpl; intros k i H; [contradiction|].
  assert (Hrest : In i (where_from (S k) rest) ->
                  exists j, i = k + j /\ nth_error (b :: rest) j = Some true).
  { intros H'. destruct (IH _ _ H') as [j [-> Hj]].
    exists (S j). split; [lia|exact Hj]. }
  destruct b; [|auto].
  destruct H as [<-|H]; [|auto].
  exists 0. split; [lia|reflexivity].
Qed.

Lemma where_from_none (mask : list bool) :
  forall k, Forall (fun b => b = false) mask -> where_from k mask = [].
Proof.
  induction mask as [|b rest IH]; intros k H; [reflexivity|].
  inversion H; subst. simpl. now apply IH.
Qed.

Lemma np_where_bound (mask : list bool) (i : nat) :
  In i (np_where mask) -> i < List.length mask /\ nth_error mask i = Some true.
Proof.
  intros H. apply where_from_spec in H. destruct H as [j [-> Hj]]. simpl.
  split; [|assumption]. apply nth_error_Some. congruence.
Qed.

(** The positions [np.where] selects hold the target identifier. *)
Lemma np_where_eq_mask (ids : list string) (target : string) (i : nat) :
  In i (np_where (eq_mask ids target)) ->
  i < List.length ids /\ nth_error ids i = Some target.
Proof.
  intros H. apply np_where_bound in H. destruct H as [Hlt Hn].
  unfold eq_mask in *. rewrite length_map in Hlt. split; [assumption|].
  rewrite nth_error_map in Hn.
  destruct (nth_error ids i) as [s|]; simpl in Hn; [|discriminate].
  injection Hn as Hn. apply String.eqb_eq in Hn. now subst.
Qed.

Lemma eq_mask_absent (ids : list string) (target : string) :
  ~ In target ids -> Forall (fun b => b = false) (eq_mask ids target).
Proof.
  intros H. unfold eq_mask. apply Forall_forall. intros b Hb.
  apply in_map_iff in Hb. destruct Hb as [s [<- Hs]].
  apply String.eqb_neq. intros ->. contradiction.
Qed.

Variable A : Type.

Lemma take_rows_total (a : ndarray A) (indices : list nat) :
  Forall (fun i => i < List.length a) indices ->
  exists rows, take_rows a indices = Some rows.
Proof.
  induction 1 as [|i rest Hi _ [rows IH]]; simpl; [now exists []|].
  apply nth_error_Some in Hi.
  destruct (nth_error a i) as [r|]; [|congruence].
  rewrite IH. now exists (r :: rows).
Qed.

Lemma take_rows_Forall2 (a : ndarray A) (indices : list nat) :
  forall rows, take_rows a indices = Some rows ->
    Forall2 (fun i r => nth_error a i = Some r) indices rows.
Proof.
  induction indices as [|i rest IH]; simpl; intros rows H.
  - injection H as <-. constructor.
  - destruct (nth_error a i) as [r|] eqn:Hi; [|discriminate].
    destruct (take_rows a rest) as [rs|]; [|discriminate].
    injection H as <-. constructor; auto.
Qed.

Lemma take_rows_width (w : nat) (a : ndarray A) (indices : list nat) :
  Forall (fun r => List.length r = w) a ->
  forall rows, take_rows a indices = Some rows ->
    Forall (fun r => List.length r = w) rows.
Proof.
  intros Ha rows H. apply take_rows_Forall2 in H.
  induction H as [|i r il rl Hi _ IH]; constructor; [|assumption].
  rewrite Forall_forall in Ha. apply Ha. eapply nth_error_In; eassumption.
Qed.

End Indexing.

(* ================================================================== *)
(** ** Facts about the NetCDF cells *)

Module NcFacts.
Import Nc.

Lemma zip5_app (a1 : list float) :
  forall b1 c1 d1 e1 a2 b2 c2 d2 e2,
    List.length b1 = List.length a1 -> List.length c1 = List.length a1 ->
    List.length d1 = List.length a1 -> List.length e1 = List.length a1 ->
    zip5 (a1 ++ a2) (b1 ++ b2) (c1 ++ c2) (d1 ++ d2) (e1 ++ e2)
    = zip5 a1 b1 c1 d1 e1 ++ zip5 a2 b2 c2 d2 e2.
Proof.
  induction a1 as [|x a1 IH]; intros [|y b1] [|z c1] [|u d1] [|v e1];
    intros; simpl in *; try discriminate; [reflexivity|].
  f_equal. apply IH; congruence.
Qed.

Lemma zip5_In (a : list float) :
  forall b c d e s, In s (zip5 a b c d e) ->
    exists j, nth_error a j = Some (lat s) /\ nth_error b j = Some (lon s) /\
              nth_error c j = Some (wind s) /\ nth_error d j = Some (pres s) /\
              nth_error e j = Some (t s).
Proof.
  induction a as [|x a IH]; intros [|y b] [|z c] [|u d] [|v e] s H;
    simpl in H; try contradiction.
  destruct H as [<-|H].
  - exists 0. simpl. repeat split.
  - destruct (IH _ _ _ _ _ H) as [j Hj]. exists (S j). exact Hj.
Qed.

Lemma zip5_unzip5 (l : list sample) :
  zipped (unzip5 l) = l.
Proof.
  unfold zipped, unzip5; simpl.
  induction l as [|[a b c d e] l IH]; simpl; [reflexivity|].
  now rewrite IH.
Qed.

(** Running the filter again on the names it has rebound changes
    nothing. *)
Lemma refilter_again (f : filtered) : refilter (snd (refilter f)) = refilter f.
Proof.
  unfold refilter.
  destruct (valid_data f) as [|s v] eqn:E; simpl.
  - now rewrite E.
  - unfold valid_data in *. rewrite zip5_unzip5, <- E, filter_idem, E.
    reflexivity.
Qed.

Lemma refilter_track (f : filtered) : fst (refilter f) = valid_data f.
Proof. unfold refilter. now destruct (valid_data f). Qed.

Lemma select_inv (a : ndarray float) (idx : list nat) (l : list float) :
  select a idx = Returned l ->
  exists rows, take_rows a idx = Some rows /\ l = flatten rows.
Proof.
  unfold select. destruct (take_rows a idx) as [rows|]; simpl; intros H;
    [|discriminate].
  injection H as <-. now exists rows.
Qed.

Lemma select_total (n w : nat) (a : ndarray float) (idx : list nat) :
  rows_ok n w a -> Forall (fun i => i < n) idx ->
  exists l, select a idx = Returned l.
Proof.
  intros [Hn _] Hidx. rewrite <- Hn in Hidx.
  destruct (take_rows_total a Hidx) as [rows Hrows].
  unfold select. rewrite Hrows. simpl. eauto.
Qed.

Lemma storm_indices_bound (nc : NcFile) (target : string) :
  Forall (fun i => i < List.length (var_sid nc)) (storm_indices nc target).
Proof.
  apply Forall_forall. intros i Hi. apply np_where_eq_mask in Hi.
  unfold storm_ids in Hi. rewrite length_map in Hi. tauto.
Qed.

(** Under the loader's contract the selection runs to completion. *)
Lemma extract_filtered_total (w : nat) (nc : NcFile) (target : string) :
  shape_ok w nc -> exists f, extract_filtered nc target = Returned f.
Proof.
  intros (H1 & H2 & H3 & H4 & H5).
  pose proof (storm_indices_bound nc target) as Hb.
  destruct (select_total H1 Hb) as [l1 E1].
  destruct (select_total H2 Hb) as [l2 E2].
  destruct (select_total H3 Hb) as [l3 E3].
  destruct (select_total H4 Hb) as [l4 E4].
  destruct (select_total H5 Hb) as [l5 E5].
  unfold extract_filtered. rewrite E1, E2, E3, E4, E5. simpl. eauto.
Qed.

Lemma extract_filtered_inv (nc : NcFile) (target : string) (f : filtered) :
  extract_filtered nc target = Returned f ->
  let idx := storm_indices nc target in
  exists r1 r2 r3 r4 r5,
    take_rows (var_lat nc) idx = Some r1 /\
    take_rows (var_lon nc) idx = Some r2 /\
    take_rows (var_wmo_wind nc) idx = Some r3 /\
    take_rows (var_wmo_pres nc) idx = Some r4 /\
    take_rows (var_time nc) idx = Some r5 /\
    f = mkFiltered (flatten r1) (flatten r2) (flatten r3) (flatten r4)
                   (flatten r5).
Proof.
  intros H idx. unfold extract_filtered in H. fold idx in H.
  destruct (select (var_lat nc) idx) as [l1| |] eqn:E1; try discriminate.
  destruct (select (var_lon nc) idx) as [l2| |] eqn:E2; try discriminate.
  destruct (select (var_wmo_wind nc) idx) as [l3| |] eqn:E3; try discriminate.
  destruct (select (var_wmo_pres nc) idx) as [l4| |] eqn:E4; try discriminate.
  destruct (select (var_time nc) idx) as [l5| |] eqn:E5; try discriminate.
  simpl in H. injection H as <-.
  apply select_inv in E1, E2, E3, E4, E5.
  destruct E1 as [r1 [? ->]]. destruct E2 as [r2 [? ->]].
  destruct E3 as [r3 [? ->]]. destruct E4 as [r4 [? ->]].
  destruct E5 as [r5 [? ->]].
  exists r1, r2, r3, r4, r5. repeat split; assumption.
Qed.

Lemma extract_found (nc : NcFile) (target : string) (f : filtered) :
  In target (storm_ids nc) -> extract_filtered nc target = Returned f ->
  extract nc target = Returned (valid_data f)
  /\ candidates nc target = Returned (zipped f).
Proof.
  intros Hin Hf. apply contains_In in Hin.
  unfold extract, candidates, verify. rewrite Hin. simpl. rewrite Hf. simpl.
  now rewrite refilter_track.
Qed.

Lemma extract_absent (nc : NcFile) (target : string) :
  ~ In target (storm_ids nc) -> extract nc target = Exited.
Proof.
  intros H. apply contains_false in H. unfold extract, verify.
  now rewrite H.
Qed.

Lemma extract_inv (nc : NcFile) (target : string) (track : list sample) :
  extract nc target = Returned track ->
  In target (storm_ids nc) /\
  exists f, extract_filtered nc target = Returned f /\ track = valid_data f.
Proof.
  unfold extract, verify.
  destruct (contains (storm_ids nc) target) eqn:E; simpl; [|discriminate].
  destruct (extract_filtered nc target) as [f| |]; simpl; try discriminate.
  intros H. injection H as <-. split; [now apply contains_In|].
  exists f. split; [reflexivity|apply refilter_track].
Qed.

Lemma select_outcome (a : ndarray float) (idx : list nat) :
  (exists l, select a idx = Returned l) \/ select a idx = Failed IndexError.
Proof.
  unfold select. destruct (take_rows a idx); simpl; eauto.
Qed.

(** The selection contains no [exit()], and the only exception it can
    raise is the one of an index out of bounds. *)
Lemma extract_filtered_outcome (nc : NcFile) (target : string) :
  (exists f, extract_filtered nc target = Returned f)
  \/ extract_filtered nc target = Failed IndexError.
Proof.
  unfold extract_filtered.
  destruct (select_outcome (var_lat nc) (storm_indices nc target))
    as [[l1 ->]| ->]; simpl; [|now right].
  destruct (select_outcome (var_lon nc) (storm_indices nc target))
    as [[l2 ->]| ->]; simpl; [|now right].
  destruct (select_outcome (var_wmo_wind nc) (storm_indices nc target))
    as [[l3 ->]| ->]; simpl; [|now right].
  destruct (select_outcome (var_wmo_pres nc) (storm_indices nc target))
    as [[l4 ->]| ->]; simpl; [|now right].
  destruct (select_outcome (var_time nc) (storm_indices nc target))
    as [[l5 ->]| ->]; simpl; [|now right].
  left. eauto.
Qed.

(** [exit()] is reached exactly when the target is not a decoded
    identifier. *)
Lemma extract_exited (nc : NcFile) (target : string) :
  extract nc target = Exited <-> ~ In target (storm_ids nc).
Proof.
  split; [|apply extract_absent].
  unfold extract, verify. intros H Hin. apply contains_In in Hin.
  rewrite Hin in H.
  destruct (extract_filtered_outcome nc target) as [[f E]|E];
    rewrite E in H; simpl in H; discriminate.
Qed.

(** The three ways a run of the NetCDF cells can end. *)
Lemma extract_outcome (nc : NcFile) (target : string) :
  (~ In target (storm_ids nc) /\ extract nc target = Exited)
  \/ (In target (storm_ids nc) /\
      ((exists track, extract nc target = Returned track)
       \/ extract nc target = Failed IndexError)).
Proof.
  destruct (in_dec string_dec target (storm_ids nc)) as [Hin|Hno].
  - right. split; [assumption|].
    pose proof Hin as Hc. apply contains_In in Hc.
    unfold extract, verify. rewrite Hc. cbn [bind].
    destruct (extract_filtered_outcome nc target) as [[f ->]| ->];
      cbn [bind]; eauto.
  - left. split; [assumption|now apply extract_absent].
Qed.

Lemma cell_picked (a : ndarray float) (i j : nat) (r : list float) (x : float) :
  picked a i r -> nth_error r j = Some x -> cell a i j = Some x.
Proof. unfold picked, cell. now intros ->. Qed.

(** Rows picked at the same indices from five arrays of one width stay
    aligned through [flatten] and [zip]. *)
Lemma zip5_flatten_position (w : nat) (a1 a2 a3 a4 a5 : ndarray float)
      (idx : list nat) :
  forall r1 r2 r3 r4 r5,
    Forall2 (picked a1) idx r1 -> Forall2 (picked a2) idx r2 ->
    Forall2 (picked a3) idx r3 -> Forall2 (picked a4) idx r4 ->
    Forall2 (picked a5) idx r5 ->
    Forall (fun r => List.length r = w) r1 ->
    Forall (fun r => List.length r = w) r2 ->
    Forall (fun r => List.length r = w) r3 ->
    Forall (fun r => List.length r = w) r4 ->
    Forall (fun r => List.length r = w) r5 ->
    forall s,
      In s (zip5 (flatten r1) (flatten r2) (flatten r3) (flatten r4)
                 (flatten r5)) ->
      exists i j, In i idx /\
        cell a1 i j = Some (lat s) /\ cell a2 i j = Some (lon s) /\
        cell a3 i j = Some (wind s) /\ cell a4 i j = Some (pres s) /\
        cell a5 i j = Some (t s).
Proof.
  induction idx as [|i idx IH]; intros r1 r2 r3 r4 r5 F1 F2 F3 F4 F5
    W1 W2 W3 W4 W5 s Hs.
  - inversion F1; subst. simpl in Hs. contradiction.
  - inversion F1 as [|? x1 ? t1 P1 F1']; subst.
    inversion F2 as [|? x2 ? t2 P2 F2']; subst.
    inversion F3 as [|? x3 ? t3 P3 F3']; subst.
    inversion F4 as [|? x4 ? t4 P4 F4']; subst.
    inversion F5 as [|? x5 ? t5 P5 F5']; subst.
    inversion W1; inversion W2; inversion W3; inversion W4; inversion W5;
      subst.
    unfold flatten in Hs. simpl in Hs.
    rewrite zip5_app in Hs by congruence.
    apply in_app_or in Hs. destruct Hs as [Hs|Hs].
    + apply zip5_In in Hs. destruct Hs as (j & Q1 & Q2 & Q3 & Q4 & Q5).
      exists i, j. split; [now left|].
      repeat split; eapply cell_picked; eassumption.
    + destruct (IH t1 t2 t3 t4 t5) with (s := s)
        as (i' & j & Hi & Hc); auto.
      exists i', j. split; [now right|exact Hc].
Qed.

(** Under the loader's contract every candidate is the sample at a
    position of the source whose decoded identifier is the target. *)
Lemma zipped_position (w : nat) (nc : NcFile) (target : string)
      (f : filtered) (s : sample) :
  shape_ok w nc -> extract_filtered nc target = Returned f ->
  In s (zipped f) ->
  exists i j, nth_error (storm_ids nc) i = Some target /\ at_position nc i j s.
Proof.
  intros (H1 & H2 & H3 & H4 & H5) Hf Hs.
  apply extract_filtered_inv in Hf.
  destruct Hf as (r1 & r2 & r3 & r4 & r5 & T1 & T2 & T3 & T4 & T5 & ->).
  unfold zipped in Hs; simpl in Hs.
  destruct (@zip5_flatten_position w (var_lat nc) (var_lon nc)
              (var_wmo_wind nc) (var_wmo_pres nc) (var_time nc)
              (storm_indices nc target) r1 r2 r3 r4 r5) with (s := s)
    as (i & j & Hi & Hc);
    try (apply take_rows_Forall2; assumption);
    try (eapply take_rows_width; [|eassumption];
         match goal with H : rows_ok _ _ _ |- _ => apply H end);
    try assumption.
  exists i, j. split; [|exact Hc].
  apply np_where_eq_mask in Hi. tauto.
Qed.

End NcFacts.

(* ================================================================== *)
(** ** Facts about the conversion of day offsets *)

Module DatetimeFacts.
Import Datetime.

Local Open Scope Z_scope.

Lemma signed_zero_is_zero (s : bool) :
  PrimFloat.eqb (if s then neg_zero else zero) 0 = true.
Proof. destruct s; reflexivity. Qed.

(** A float that holds a whole number splits into that number and a zero
    fraction. *)
Lemma modf_whole (t : float) (n : Z) :
  has_value t n ->
  exists f, modf t = Returned (n, f) /\ PrimFloat.eqb f 0 = true.
Proof.
  unfold has_value, modf.
  destruct (Prim2SF t) as [s|s| |s m e]; try contradiction.
  - intros ->. eexists. split; [reflexivity|apply signed_zero_is_zero].
  - destruct (0 <=? e) eqn:He.
    + intros Ha. exists (if s then neg_zero else zero).
      split; [|apply signed_zero_is_zero].
      apply Z.leb_le in He. rewrite Z.shiftl_mul_pow2 by assumption.
      rewrite <- Ha. destruct s; [now rewrite Z.opp_involutive|reflexivity].
    + intros Ha. apply Z.leb_gt in He.
      assert (Hk : 0 <= - e) by lia.
      assert (Hp : 2 ^ (- e) <> 0) by (apply Z.pow_nonzero; lia).
      rewrite Z.shiftr_div_pow2, Z.land_ones by assumption.
      rewrite Ha, Z.div_mul, Z.mod_mul by assumption.
      exists (if s then neg_zero else zero).
      split; [|apply signed_zero_is_zero].
      destruct s; [now rewrite Z.opp_involutive|reflexivity].
Qed.

Lemma timedelta_days_whole (t : float) (n : Z) :
  has_value t n -> -999999999 <= n <= 999999999 ->
  timedelta_days t = Returned (mkDelta (n * US_PER_DAY)).
Proof.
  intros Hv Hn. destruct (@modf_whole t n Hv) as [f [Hm Hf]].
  unfold timedelta_days. rewrite Hm. cbn [bind fst snd]. rewrite Hf.
  cbn [bind]. unfold td_days. cbn [total_us].
  rewrite Z.div_mul by (unfold US_PER_DAY; lia).
  destruct (Z.leb_spec (-999999999) n); [|lia].
  destruct (Z.leb_spec n 999999999); [|lia].
  reflexivity.
Qed.

Lemma month_day_checked :
  forallb (month_day_check true) (seq 0 366) = true /\
  forallb (month_day_check false) (seq 0 365) = true.
Proof. split; vm_compute; reflexivity. Qed.

Lemma month_day_ok (n : Z) (leapyear : bool) :
  0 <= n <= 364 ->
  table DAYS_BEFORE_MONTH (fst (month_day n leapyear))
  + (if (2 <? fst (month_day n leapyear)) && leapyear then 1 else 0)
  + snd (month_day n leapyear) = n + 1.
Proof.
  intros Hn.
  assert (Hin : In (Z.to_nat n) (seq 0 365)) by (apply in_seq; lia).
  assert (Hin' : In (Z.to_nat n) (seq 0 366)) by (apply in_seq; lia).
  destruct month_day_checked as [Ht Hf].
  rewrite forallb_forall in Ht, Hf.
  assert (H : month_day_check leapyear (Z.to_nat n) = true)
    by (destruct leapyear; auto).
  unfold month_day_check in H. rewrite Z2Nat.id in H by lia.
  destruct (month_day n leapyear) as [m d]. simpl fst; simpl snd.
  apply andb_prop in H. destruct H as [H _].
  apply andb_prop in H. destruct H as [H _].
  now apply Z.eqb_eq in H.
Qed.

Lemma is_leap_iff (y : Z) :
  is_leap y = true <-> (y mod 4 = 0 /\ (y mod 100 <> 0 \/ y mod 400 = 0)).
Proof.
  unfold is_leap.
  rewrite andb_true_iff, orb_true_iff, negb_true_iff, !Z.eqb_eq, Z.eqb_neq.
  tauto.
Qed.


Lemma ord2ymd_unfold (k : Z) :
  ord2ymd k =
  let n0 := k - 1 in
  let n400 := n0 / 146097 in
  let r1 := n0 mod 146097 in
  let n100 := r1 / 36524 in
  let r2 := r1 mod 36524 in
  let n4 := r2 / 1461 in
  let r3 := r2 mod 1461 in
  let n1 := r3 / 365 in
  let r4 := r3 mod 365 in
  let y := n400 * 400 + 1 + n100 * 100 + n4 * 4 + n1 in
  if (n1 =? 4) || (n100 =? 4) then (y - 1, 12, 31)
  else
    let md := month_day r4 ((n1 =? 3) && (negb (n4 =? 24) || (n100 =? 3))) in
    (y, fst md, snd md).
Proof.
  unfold ord2ymd, month_day, DI400Y, DI100Y, DI4Y. cbv zeta.
  destruct (_ || _); [reflexivity|].
  destruct (_ <? _); reflexivity.
Qed.

Lemma toordinal_fromordinal (k : Z) :
  1 <= k -> toordinal (fromordinal k) = k.
Proof.
  intros Hk. unfold toordinal, fromordinal. rewrite ord2ymd_unfold. cbv zeta.
  remember (k - 1) as n0 eqn:En0.
  remember (n0 / 146097) as n400 eqn:E400.
  remember (n0 mod 146097) as r1 eqn:Er1.
  remember (r1 / 36524) as n100 eqn:E100.
  remember (r1 mod 36524) as r2 eqn:Er2.
  remember (r2 / 1461) as n4 eqn:E4.
  remember (r2 mod 1461) as r3 eqn:Er3.
  remember (r3 / 365) as n1 eqn:E1.
  remember (r3 mod 365) as r4 eqn:Er4.
  assert (B : 0 <= n400 /\ 0 <= r1 < 146097 /\ n0 = 146097 * n400 + r1 /\
              0 <= n100 <= 4 /\ 0 <= r2 < 36524 /\ r1 = 36524 * n100 + r2 /\
              0 <= n4 <= 24 /\ 0 <= r3 < 1461 /\ r2 = 1461 * n4 + r3 /\
              0 <= n1 <= 4 /\ 0 <= r4 < 365 /\ r3 = 365 * n1 + r4).
  { subst n400 r1 n100 r2 n4 r3 n1 r4. 
    Z.div_mod_to_equations. lia. }
  clear E400 Er1 E100 Er2 E4 Er3 E1 Er4.
  destruct B as (B0 & B1 & B2 & B3 & B4 & B5 & B6 & B7 & B8 & B9 & B10 & B11).
  destruct ((n1 =? 4) || (n100 =? 4)) eqn:Hsp.
  - cbn [date_at year month day]. unfold ymd2ord, days_before_month.
    change (table DAYS_BEFORE_MONTH 12) with 334. change (2 <? 12) with true.
    cbn [andb].
    assert (Hl : is_leap (n400 * 400 + 1 + n100 * 100 + n4 * 4 + n1 - 1) = true).
    { apply is_leap_iff. apply orb_true_iff in Hsp. rewrite !Z.eqb_eq in Hsp.
      Z.div_mod_to_equations. lia. }
    rewrite Hl. unfold days_before_year.
    apply orb_true_iff in Hsp. rewrite !Z.eqb_eq in Hsp.
    Z.div_mod_to_equations. lia.
  - apply orb_false_iff in Hsp. rewrite !Z.eqb_neq in Hsp.
    set (leap := (n1 =? 3) && (negb (n4 =? 24) || (n100 =? 3))).
    cbn [date_at year month day]. unfold ymd2ord, days_before_month.
    assert (Hl : is_leap (n400 * 400 + 1 + n100 * 100 + n4 * 4 + n1) = leap).
    { destruct leap eqn:El; subst leap.
      - apply is_leap_iff.
        rewrite andb_true_iff, orb_true_iff, negb_true_iff, !Z.eqb_eq, Z.eqb_neq in El.
        Z.div_mod_to_equations. lia.
      - destruct (is_leap _) eqn:E; [|reflexivity]. exfalso.
        apply is_leap_iff in E.
        rewrite andb_false_iff, orb_false_iff, negb_false_iff, !Z.eqb_eq, Z.eqb_neq in El.
        Z.div_mod_to_equations. lia. }
    rewrite Hl.
    pose proof (@month_day_ok r4 leap ltac:(lia)) as Hmd.
    rewrite <- Z.add_assoc. rewrite Hmd.
    unfold days_before_year. Z.div_mod_to_equations. lia.
Qed.

Lemma start_ordinal : toordinal start_date = 678576.
Proof. reflexivity. Qed.

(** Adding a whole number of days to a date at midnight lands on midnight
    of the day whose ordinal is that many days further. *)
Lemma add_whole_days (n : Z) :
  0 < 678576 + n <= MAXORDINAL ->
  add start_date (mkDelta (n * US_PER_DAY))
  = Returned (fromordinal (678576 + n)).
Proof.
  intros Hr. unfold add. rewrite start_ordinal.
  cbn [hour minute second microsecond start_date date_at total_us].
  replace (678576 * US_PER_DAY + ((((0 * 60 + 0) * 60 + 0) * US_PER_SECOND) + 0)
           + n * US_PER_DAY) with ((678576 + n) * US_PER_DAY) by ring.
  rewrite Z.div_mul, Z.mod_mul by (unfold US_PER_DAY; lia).
  destruct (Z.ltb_spec 0 (678576 + n)); [|lia].
  destruct (Z.leb_spec (678576 + n) MAXORDINAL); [|lia].
  cbn [andb]. unfold fromordinal, date_at.
  destruct (ord2ymd (678576 + n)) as [[y m] d]. reflexivity.
Qed.

End DatetimeFacts.

(* ================================================================== *)
(** ** Properties of the extraction *)

Module Track.
Import Nc NcFacts.

Lemma keep_true (s : sample) :
  keep s = true <->
  PrimFloat.is_nan (lat s) = false /\ PrimFloat.is_nan (lon s) = false /\
  PrimFloat.eqb (wind s) missing = false /\
  PrimFloat.eqb (pres s) missing = false.
Proof.
  unfold keep. rewrite !andb_true_iff, !negb_true_iff. tauto.
Qed.

Lemma keep_false (s : sample) :
  keep s = false <->
  PrimFloat.is_nan (lat s) = true \/ PrimFloat.is_nan (lon s) = true \/
  PrimFloat.eqb (wind s) missing = true \/
  PrimFloat.eqb (pres s) missing = true.
Proof.
  unfold keep. rewrite !andb_false_iff, !negb_false_iff. tauto.
Qed.

(** The Track is the filter of the candidates, whenever either exists. *)
Lemma extract_candidates (nc : NcFile) (target : string) (track : list sample) :
  extract nc target = Returned track <->
  exists cands, candidates nc target = Returned cands
                /\ track = filter keep cands.
Proof.
  unfold extract, candidates. destruct (verify nc target) as [[]| |]; simpl.
  - destruct (extract_filtered nc target) as [f| |]; simpl.
    + rewrite refilter_track. unfold valid_data. split.
      * intros H. injection H as <-. eauto.
      * intros [cands [H ->]]. now injection H as <-.
    + split; [discriminate|]. intros [c [H _]]. discriminate.
    + split; [discriminate|]. intros [c [H _]]. discriminate.
  - split; [discriminate|]. intros [c [H _]]. discriminate.
  - split; [discriminate|]. intros [c [H _]]. discriminate.
Qed.

Lemma candidates_total (w : nat) (nc : NcFile) (target : string) :
  shape_ok w nc -> In target (storm_ids nc) ->
  exists cands, candidates nc target = Returned cands.
Proof.
  intros Hs Hin. destruct (extract_filtered_total target Hs) as [f Hf].
  destruct (extract_found _ _ Hin Hf) as [_ Hc]. eauto.
Qed.

Lemma candidates_position (w : nat) (nc : NcFile) (target : string)
      (cands : list sample) (s : sample) :
  shape_ok w nc -> candidates nc target = Returned cands -> In s cands ->
  exists i j, nth_error (storm_ids nc) i = Some target /\ at_position nc i j s.
Proof.
  intros Hs Hc Hin. unfold candidates in Hc.
  destruct (verify nc target) as [[]| |]; simpl in Hc; try discriminate.
  destruct (extract_filtered nc target) as [f| |] eqn:Hf; simpl in Hc;
    try discriminate.
  injection Hc as <-. eapply zipped_position; eassumption.
Qed.

Lemma select_name_In (A : Type) (name_of : A -> string) (l : list A)
      (name : string) (r : A) :
  In r (filter (fun r => String.eqb (name_of r) name) l)
  <-> In r l /\ name_of r = name.
Proof. rewrite filter_In, String.eqb_eq. tauto. Qed.

Lemma select_name_absent (A : Type) (name_of : A -> string) (l : list A)
      (name : string) :
  ~ In name (map name_of l) ->
  filter (fun r => String.eqb (name_of r) name) l = [].
Proof.
  intros H. apply filter_all_false. apply Forall_forall. intros r Hr.
  apply String.eqb_neq. intros E. apply H. rewrite <- E. now apply in_map.
Qed.

Lemma select_name_present (A : Type) (name_of : A -> string) (l : list A)
      (name : string) :
  In name (map name_of l) ->
  filter (fun r => String.eqb (name_of r) name) l <> [].
Proof.
  intros H E. apply in_map_iff in H. destruct H as [r [Hn Hr]].
  assert (Hin : In r (filter (fun r => String.eqb (name_of r) name) l))
    by (apply select_name_In; auto).
  rewrite E in Hin. contradiction.
Qed.

End Track.

(* ================================================================== *)
(** ** The claims of the specification *)

Local Open Scope string_scope.
Local Open Scope float_scope.

(** C1 (as stated, refuted): in the CSV section a row of the target storm
    with a [NaN] latitude and [-9999] wind and pressure is part of the
    selection; the same holds in the shapefile section. *)
Lemma missing_values_survive_selection :
  In Sample.phoebe_nan (Csv.extract Sample.ibtracs_data "PHOEBE")
  /\ PrimFloat.is_nan (Csv.LAT Sample.phoebe_nan) = true
  /\ PrimFloat.eqb (Csv.WMO_WIND Sample.phoebe_nan) (-9999) = true
  /\ PrimFloat.eqb (Csv.WMO_PRES Sample.phoebe_nan) (-9999) = true
  /\ In Sample.shp_nan (Shp.extract Sample.ibtracs_gdf "PHOEBE")
  /\ PrimFloat.is_nan (Shp.LAT Sample.shp_nan) = true.
Proof.
  repeat split; try reflexivity.
  - vm_compute. right. left. reflexivity.
  - vm_compute. left. reflexivity.
Qed.

(** C1 (amended): every sample of the Track returned by the NetCDF
    extraction has a latitude and a longitude that are not [NaN] and a wind
    and a pressure different from [-9999]; the CSV and shapefile selections
    return exactly the rows whose [NAME] is the target, whatever their
    values. *)
Theorem valid_data_has_no_missing_value :
  (forall nc target track,
      Nc.extract nc target = Returned track ->
      Forall (fun s =>
                PrimFloat.is_nan (Nc.lat s) = false /\
                PrimFloat.is_nan (Nc.lon s) = false /\
                PrimFloat.eqb (Nc.wind s) (-9999) = false /\
                PrimFloat.eqb (Nc.pres s) (-9999) = false) track)
  /\ (forall ibtracs_data name r,
         In r (Csv.extract ibtracs_data name)
         <-> In r ibtracs_data /\ Csv.NAME r = name)
  /\ (forall ibtracs_gdf name r,
         In r (Shp.extract ibtracs_gdf name)
         <-> In r ibtracs_gdf /\ Shp.NAME r = name).
Proof.
  split; [|split].
  - intros nc target track H.
    apply NcFacts.extract_inv in H. destruct H as [_ [f [_ ->]]].
    unfold Nc.valid_data.
    eapply Forall_impl; [|apply filter_Forall_true].
    intros s Hs. now apply Track.keep_true in Hs.
  - intros. apply Track.select_name_In.
  - intros. apply Track.select_name_In.
Qed.

Lemma valid_data_has_no_missing_value_witness :
  Forall (fun s =>
            PrimFloat.is_nan (Nc.lat s) = false /\
            PrimFloat.is_nan (Nc.lon s) = false /\
            PrimFloat.eqb (Nc.wind s) (-9999) = false /\
            PrimFloat.eqb (Nc.pres s) (-9999) = false)
         [Nc.mkSample 9.5 (-91.5) 42 1002 56092.25;
          Nc.mkSample 10 (-92) 45 1000 56092.5].
Proof.
  apply (proj1 valid_data_has_no_missing_value Sample.nc "2012166N09269").
  vm_compute. reflexivity.
Defined.

(** C2 (as stated, refuted): for a target that no record carries, the
    NetCDF cells end in [exit()] and the CSV and shapefile selections return
    the empty selection; none of them yields [StormNotFound]. *)
Lemma absent_storm_is_not_reported :
  contains (Nc.storm_ids Sample.nc) "1851175N26270" = false
  /\ Nc.extract Sample.nc "1851175N26270" = Exited
  /\ Csv.run Sample.ibtracs_data "ALBERTO" = Returned []
  /\ Shp.run Sample.ibtracs_gdf "ALBERTO" = Returned [].
Proof. repeat split; vm_compute; reflexivity. Qed.

(** C2 (amended): when the target is not among the decoded identifiers, the
    NetCDF extraction ends in [exit()] and delivers neither a Track nor a
    failure value, and it never yields [StormNotFound]; when no row carries
    the target name, the CSV and the shapefile selections return the empty
    selection. *)
Theorem absent_storm_outcome (target : string) :
  (forall nc, ~ In target (Nc.storm_ids nc) -> Nc.extract nc target = Exited)
  /\ (forall nc, Nc.extract nc target <> Failed StormNotFound)
  /\ (forall ibtracs_data,
         ~ In target (map Csv.NAME ibtracs_data) ->
         Csv.run ibtracs_data target = Returned [])
  /\ (forall ibtracs_gdf,
         ~ In target (map Shp.NAME ibtracs_gdf) ->
         Shp.run ibtracs_gdf target = Returned []).
Proof.
  split; [|split; [|split]].
  - intros nc. apply NcFacts.extract_absent.
  - intros nc H.
    destruct (NcFacts.extract_outcome nc target)
      as [[_ E]|[_ [[track E]|E]]]; rewrite E in H; discriminate.
  - intros df H. unfold Csv.run, Csv.extract.
    now rewrite Track.select_name_absent.
  - intros gdf H. unfold Shp.run, Shp.extract.
    now rewrite Track.select_name_absent.
Qed.

Lemma absent_storm_outcome_witness :
  Nc.extract Sample.nc_unordered "1999001N10200" = Exited
  /\ Csv.run Sample.ibtracs_data "KATRINA" = Returned [].
Proof.
  split.
  - apply (proj1 (absent_storm_outcome "1999001N10200")).
    vm_compute. intros [H|[]]. discriminate H.
  - apply (proj1 (proj2 (proj2 (absent_storm_outcome "KATRINA")))).
    vm_compute. intros [H|[H|[]]]; discriminate H.
Defined.

(** C3 (as stated, refuted): a storm whose two time steps are stored latest
    first comes back in that order, the first timestamp of the Track above
    the second; the CSV selection likewise returns its rows in the order of
    the table, here six o'clock before midnight. *)
Lemma track_keeps_stored_order :
  Nc.extract Sample.nc_unordered "2012166N09269"
  = Returned [Nc.mkSample 9 (-91) 40 1004 2;
              Nc.mkSample 9.5 (-91.5) 42 1002 1]
  /\ PrimFloat.leb 2 1 = false
  /\ map Csv.ISO_TIME (Csv.extract Sample.ibtracs_data "PHOEBE")
     = ["1989-01-09 06:00:00"; "1989-01-09 00:00:00"].
Proof. repeat split; vm_compute; reflexivity. Qed.

(** C3 (amended): no section sorts.  The Track keeps the candidates in the
    order of the source, so when every candidate's timestamp is at most the
    timestamp of every later candidate, neighbours of the Track satisfy
    [timestamp[i] <= timestamp[i+1]]; a CSV or shapefile table that is in
    order yields a selection that is in order. *)
Theorem track_order_is_source_order :
  (forall nc target cands track,
      Nc.candidates nc target = Returned cands ->
      Nc.extract nc target = Returned track ->
      subseq track cands /\
      (StronglySorted (fun a b => PrimFloat.leb (Nc.t a) (Nc.t b) = true) cands ->
       forall i a b,
         nth_error track i = Some a -> nth_error track (S i) = Some b ->
         PrimFloat.leb (Nc.t a) (Nc.t b) = true))
  /\ (forall (R : Csv.row -> Csv.row -> Prop) ibtracs_data name,
         StronglySorted R ibtracs_data ->
         StronglySorted R (Csv.extract ibtracs_data name))
  /\ (forall (R : Shp.row -> Shp.row -> Prop) ibtracs_gdf name,
         StronglySorted R ibtracs_gdf ->
         StronglySorted R (Shp.extract ibtracs_gdf name)).
Proof.
  split; [|split].
  - intros nc target cands track Hc Ht.
    apply Track.extract_candidates in Ht. destruct Ht as [cands' [Hc' ->]].
    rewrite Hc in Hc'. injection Hc' as <-.
    split; [apply filter_subseq|].
    intros Hs. apply StronglySorted_adjacent.
    now apply filter_StronglySorted.
  - intros. now apply filter_StronglySorted.
  - intros. now apply filter_StronglySorted.
Qed.

Lemma track_order_is_source_order_witness :
  PrimFloat.leb 56092.25 56092.5 = true.
Proof.
  apply (proj2 (proj1 track_order_is_source_order
                      Sample.nc "2012166N09269"
                      [Nc.mkSample 9 (-91) (-9999) 1004 56092;
                       Nc.mkSample 9.5 (-91.5) 42 1002 56092.25;
                       Nc.mkSample 10 (-92) 45 1000 56092.5;
                       Nc.mkSample nan (-92.5) 50 (-9999) 56092.75]
                      [Nc.mkSample 9.5 (-91.5) 42 1002 56092.25;
                       Nc.mkSample 10 (-92) 45 1000 56092.5]
                      ltac:(vm_compute; reflexivity)
                      ltac:(vm_compute; reflexivity))
          ltac:(repeat constructor)
          0%nat (Nc.mkSample 9.5 (-91.5) 42 1002 56092.25)
          (Nc.mkSample 10 (-92) 45 1000 56092.5) eq_refl eq_refl).
Defined.

(** C4 (as stated, refuted): with a target that is not in the file the
    NetCDF cells reach [exit()], which ends the host instead of handing a
    result to the caller. *)
Lemma not_found_ends_the_host :
  Nc.verify Sample.nc_no_wind "1999001N10200" = Exited
  /\ Nc.extract Sample.nc_no_wind "1999001N10200" = Exited.
Proof. split; vm_compute; reflexivity. Qed.

(** C4 (amended): the CSV and shapefile selections always hand back a
    selection.  The NetCDF extraction hands a result to its caller exactly
    when the target is among the decoded identifiers, and that result is a
    Track or the [IndexError] of an array with too few rows; when the
    target is not among them the run ends in [exit()]. *)
Theorem outcome_of_extraction (target : string) :
  (forall nc, typed_result (Nc.extract nc target)
              <-> In target (Nc.storm_ids nc))
  /\ (forall nc, In target (Nc.storm_ids nc) ->
                 (exists track, Nc.extract nc target = Returned track)
                 \/ Nc.extract nc target = Failed IndexError)
  /\ (forall nc, Nc.extract nc target = Exited
                 <-> ~ In target (Nc.storm_ids nc))
  /\ (forall ibtracs_data, typed_result (Csv.run ibtracs_data target))
  /\ (forall ibtracs_gdf, typed_result (Shp.run ibtracs_gdf target)).
Proof.
  assert (Hin : forall nc, In target (Nc.storm_ids nc) ->
                 (exists track, Nc.extract nc target = Returned track)
                 \/ Nc.extract nc target = Failed IndexError).
  { intros nc H.
    destruct (NcFacts.extract_outcome nc target) as [[Hno _]|[_ Ho]];
      [contradiction|exact Ho]. }
  split; [|split; [exact Hin|split; [|split]]].
  - intros nc. split.
    + intros H. destruct (in_dec string_dec target (Nc.storm_ids nc)) as [|n];
        [assumption|].
      apply NcFacts.extract_absent in n. rewrite n in H. contradiction.
    + intros H. destruct (Hin nc H) as [[track ->]| ->]; exact I.
  - intros nc. apply NcFacts.extract_exited.
  - intros. exact I.
  - intros. exact I.
Qed.

Lemma outcome_of_extraction_witness :
  (exists track, Nc.extract Sample.nc "1999001N10200" = Returned track)
  \/ Nc.extract Sample.nc "1999001N10200" = Failed IndexError.
Proof.
  apply (proj1 (proj2 (outcome_of_extraction "1999001N10200"))).
  vm_compute. right. right. left. reflexivity.
Defined.

(** C5 (as stated, refuted): in the CSV section the storm is present and
    its only row fails the missing-value tests, yet the selection is not
    empty. *)
Lemma selection_keeps_invalid_rows :
  Csv.keep Sample.phoebe_nan = false
  /\ Csv.extract [Sample.phoebe_nan] "PHOEBE" = [Sample.phoebe_nan]
  /\ Shp.keep Sample.shp_nan = false
  /\ Shp.extract Sample.ibtracs_gdf "PHOEBE" = [Sample.shp_nan].
Proof. repeat split; vm_compute; reflexivity. Qed.

(** C5 (amended): in the NetCDF section, under the loader's contract, a
    target that is among the decoded identifiers always has a list of
    candidates, and when the missing-value tests remove every one of them
    the extraction returns the empty Track; a target that is not among the
    identifiers ends in [exit()] instead, so the two outcomes differ.  The
    CSV and shapefile selections apply no such test: a name that a row
    carries never yields the empty selection. *)
Theorem all_candidates_missing_gives_empty_track :
  (forall w nc target,
      Nc.shape_ok w nc -> In target (Nc.storm_ids nc) ->
      (exists cands,
          Nc.candidates nc target = Returned cands /\
          (Forall (fun s => Nc.keep s = false) cands ->
           Nc.extract nc target = Returned []))
      /\ (forall absent, ~ In absent (Nc.storm_ids nc) ->
                         Nc.extract nc absent = Exited))
  /\ (forall ibtracs_data name,
         In name (map Csv.NAME ibtracs_data) ->
         Csv.extract ibtracs_data name <> [])
  /\ (forall ibtracs_gdf name,
         In name (map Shp.NAME ibtracs_gdf) ->
         Shp.extract ibtracs_gdf name <> []).
Proof.
  split; [|split].
  - intros w nc target Hs Hin.
    split; [|intros a; apply NcFacts.extract_absent].
    destruct (Track.candidates_total target Hs Hin) as [cands Hc].
    exists cands. split; [assumption|]. intros Hall.
    apply Track.extract_candidates. exists cands. split; [assumption|].
    symmetry. now apply filter_all_false.
  - intros df name Hin. now apply Track.select_name_present.
  - intros gdf name Hin. now apply Track.select_name_present.
Qed.

Lemma all_candidates_missing_gives_empty_track_witness :
  Nc.extract Sample.nc_no_wind "2012166N09269" = Returned [].
Proof.
  destruct (proj1 (proj1 all_candidates_missing_gives_empty_track
                     2%nat Sample.nc_no_wind "2012166N09269"
                     ltac:(repeat split; repeat constructor)
                     ltac:(vm_compute; left; reflexivity)))
    as [cands [Hc Hall]].
  apply Hall.
  assert (E : Nc.candidates Sample.nc_no_wind "2012166N09269"
              = Returned [Nc.mkSample 9 (-91) (-9999) 1004 56092;
                          Nc.mkSample 9.5 (-91.5) (-9999) 1002 56092.25])
    by (vm_compute; reflexivity).
  rewrite E in Hc. injection Hc as <-.
  repeat constructor.
Defined.



(** C7: under the loader's contract the Track of the NetCDF extraction is
    the candidates that pass the four tests, in their order; every sample of
    it is, field for field, the content of one position of the source whose
    decoded identifier is the target; and a candidate that fails any one of
    the four tests is not in the Track. *)
Theorem track_is_subsequence_of_candidates
        (w : nat) (nc : NcFile) (target : string) (track : list Nc.sample) :
  Nc.shape_ok w nc ->
  Nc.extract nc target = Returned track ->
  exists cands,
    Nc.candidates nc target = Returned cands
    /\ track = filter Nc.keep cands
    /\ subseq track cands
    /\ (forall s, In s track ->
          In s cands /\
          exists i j, nth_error (Nc.storm_ids nc) i = Some target
                      /\ Nc.at_position nc i j s)
    /\ (forall c, In c cands ->
          PrimFloat.is_nan (Nc.lat c) = true
          \/ PrimFloat.is_nan (Nc.lon c) = true
          \/ PrimFloat.eqb (Nc.wind c) (-9999) = true
          \/ PrimFloat.eqb (Nc.pres c) (-9999) = true ->
          ~ In c track).
Proof.
  intros Hs Ht. apply Track.extract_candidates in Ht.
  destruct Ht as [cands [Hc ->]]. exists cands.
  split; [assumption|]. split; [reflexivity|].
  split; [apply filter_subseq|]. split.
  - intros s Hin. apply filter_In in Hin. destruct Hin as [Hin _].
    split; [assumption|]. eapply Track.candidates_position; eassumption.
  - intros c _ Hfail Hin. apply filter_In in Hin. destruct Hin as [_ Hk].
    apply Track.keep_false in Hfail. congruence.
Qed.

Lemma track_is_subsequence_of_candidates_witness :
  exists cands,
    Nc.candidates Sample.nc "2012166N09269" = Returned cands
    /\ [Nc.mkSample 9.5 (-91.5) 42 1002 56092.25;
        Nc.mkSample 10 (-92) 45 1000 56092.5] = filter Nc.keep cands.
Proof.
  destruct (@track_is_subsequence_of_candidates
              2 Sample.nc "2012166N09269"
              [Nc.mkSample 9.5 (-91.5) 42 1002 56092.25;
               Nc.mkSample 10 (-92) 45 1000 56092.5]
              ltac:(repeat split; repeat constructor)
              ltac:(vm_compute; reflexivity))
    as [cands [Hc [Hf _]]].
  exists cands. split; assumption.
Defined.

(** C8: when the identifiers decode to ["2012166N09269"; "2012166N09269";
    "1999001N10200"], the target "2012166N09269" selects the positions 0
    and 1, in this order. *)
Theorem storm_indices_of_scenario (nc : NcFile) :
  Nc.storm_ids nc = ["2012166N09269"; "2012166N09269"; "1999001N10200"] ->
  Nc.storm_indices nc "2012166N09269" = [0; 1]%nat.
Proof.
  intros H. unfold Nc.storm_indices. rewrite H. reflexivity.
Qed.

Lemma storm_indices_of_scenario_witness :
  Nc.storm_indices Sample.nc "2012166N09269" = [0; 1]%nat.
Proof.
  apply storm_indices_of_scenario. vm_compute. reflexivity.
Defined.

(** C9: two extractions from the same source with the same target have the
    same outcome and the same Track; running the filter of line 743 a
    second time on the names it has rebound gives the same [valid_data] and
    the same [filtered_*]; the CSV and shapefile selections are the same when
    repeated on their own result. *)
Theorem extraction_is_repeatable :
  (forall nc target,
      bind (Nc.extract nc target)
           (fun first => bind (Nc.extract nc target)
                              (fun again => Returned (first, again)))
      = bind (Nc.extract nc target) (fun track => Returned (track, track)))
  /\ (forall f, Nc.refilter (snd (Nc.refilter f)) = Nc.refilter f)
  /\ (forall ibtracs_data name,
         Csv.extract (Csv.extract ibtracs_data name) name
         = Csv.extract ibtracs_data name)
  /\ (forall ibtracs_gdf name,
         Shp.extract (Shp.extract ibtracs_gdf name) name
         = Shp.extract ibtracs_gdf name).
Proof.
  split; [|split; [|split]].
  - intros nc target. destruct (Nc.extract nc target); reflexivity.
  - apply NcFacts.refilter_again.
  - intros. apply filter_idem.
  - intros. apply filter_idem.
Qed.



(* ================================================================== *)
(** ** Beyond the claims: the cells around the extraction *)

Local Close Scope float_scope.
(* ================================================================== *)
(** ** Further facts about [strip] *)

Module StripFacts.
Import Str.

Lemma lstrip_blank_app (pre x : string) :
  blank pre = true -> lstrip (pre ++ x) = lstrip x.
Proof.
  induction pre as [|c r IH]; simpl; intros H; [reflexivity|].
  apply andb_prop in H. destruct H as [Hc Hr]. rewrite Hc. now apply IH.
Qed.

Lemma lstrip_blank (s : string) : blank s = true -> lstrip s = "".
Proof.
  induction s as [|c r IH]; simpl; intros H; [reflexivity|].
  apply andb_prop in H. destruct H as [Hc Hr]. rewrite Hc. now apply IH.
Qed.

Lemma rstrip_blank (post : string) : blank post = true -> rstrip post = "".
Proof.
  induction post as [|c r IH]; simpl; intros H; [reflexivity|].
  apply andb_prop in H. destruct H as [Hc Hr].
  rewrite (IH Hr), Hc. reflexivity.
Qed.

Lemma rstrip_app_blank (x post : string) :
  blank post = true -> rstrip (x ++ post) = rstrip x.
Proof.
  intros H. induction x as [|c r IH]; simpl.
  - now apply rstrip_blank.
  - now rewrite IH.
Qed.

Lemma rstrip_fixed (s : string) :
  (forall c, last_char s = Some c -> isspace c = false) -> rstrip s = s.
Proof.
  induction s as [|c r IH]; intros H; [reflexivity|].
  destruct r as [|c' r'].
  - simpl. rewrite (H c eq_refl). reflexivity.
  - change (rstrip (String c (String c' r')))
      with (if isspace c && is_empty (rstrip (String c' r'))
            then "" else String c (rstrip (String c' r'))).
    rewrite IH by (intros d Hd; apply H; exact Hd).
    cbn [is_empty]. now rewrite andb_false_r.
Qed.

Lemma not_padded_ends (s : string) :
  ~ padded s ->
  (forall c, first_char s = Some c -> isspace c = false)
  /\ (forall c, last_char s = Some c -> isspace c = false).
Proof.
  intros H. split; intros c Hc; destruct (isspace c) eqn:E; try reflexivity;
    exfalso; apply H; [left|right]; eauto.
Qed.

(** Blanks on either side of a string that has none at its ends are
    removed, and nothing else. *)
Lemma strip_padding (pre s post : string) :
  blank pre = true -> blank post = true -> ~ padded s ->
  strip (pre ++ s ++ post) = s.
Proof.
  intros Hpre Hpost Hs. apply not_padded_ends in Hs. destruct Hs as [Hf Hl].
  unfold strip. rewrite lstrip_blank_app by assumption.
  destruct s as [|c r].
  - simpl. now rewrite lstrip_blank.
  - simpl. rewrite (Hf c eq_refl).
    change (String c (r ++ post)) with (String c r ++ post).
    rewrite rstrip_app_blank by assumption. now apply rstrip_fixed.
Qed.

End StripFacts.

(* ================================================================== *)
(** ** Further facts about the selection of positions *)

Module WhereFacts.

Lemma where_from_complete (mask : list bool) :
  forall k j, nth_error mask j = Some true -> In (k + j) (where_from k mask).
Proof.
  induction mask as [|b rest IH]; intros k j H.
  - destruct j; discriminate.
  - destruct j as [|j]; simpl in H.
    + injection H as ->. simpl. left. lia.
    + simpl. replace (k + S j) with (S k + j) by lia.
      destruct b; [right|]; now apply IH.
Qed.

Lemma where_from_lower (mask : list bool) :
  forall k, Forall (fun i => k <= i) (where_from k mask).
Proof.
  induction mask as [|b rest IH]; intros k; simpl; [constructor|].
  assert (H : Forall (fun i => k <= i) (where_from (S k) rest)).
  { eapply Forall_impl; [|apply IH]. simpl. intros; lia. }
  destruct b; [constructor; [lia|assumption]|assumption].
Qed.

Lemma where_from_ascending (mask : list bool) :
  forall k, StronglySorted lt (where_from k mask).
Proof.
  induction mask as [|b rest IH]; intros k; simpl; [constructor|].
  destruct b; [|apply IH].
  constructor; [apply IH|].
  eapply Forall_impl; [|apply where_from_lower]. simpl. intros; lia.
Qed.

Lemma eq_mask_nth (ids : list string) (target : string) (i : nat) :
  nth_error (eq_mask ids target) i = Some true
  <-> nth_error ids i = Some target.
Proof.
  unfold eq_mask. rewrite nth_error_map.
  destruct (nth_error ids i) as [s|]; simpl.
  - split; intros H; injection H as H.
    + apply String.eqb_eq in H. now subst.
    + subst. now rewrite String.eqb_refl.
  - split; discriminate.
Qed.

Lemma storm_indices_In (nc : NcFile) (target : string) (i : nat) :
  In i (Nc.storm_indices nc target)
  <-> nth_error (Nc.storm_ids nc) i = Some target.
Proof.
  unfold Nc.storm_indices. split.
  - intros H. now apply np_where_eq_mask in H.
  - intros H. apply eq_mask_nth in H.
    apply (where_from_complete _ 0) in H. exact H.
Qed.

End WhereFacts.

(* ================================================================== *)
(** ** Further facts about [zip] and the selected rows *)

Module ZipFacts.
Import Nc NcFacts.

Lemma zip5_nth (a : list float) :
  forall b c d e j s,
    nth_error (zip5 a b c d e) j = Some s <->
    nth_error a j = Some (lat s) /\ nth_error b j = Some (lon s) /\
    nth_error c j = Some (wind s) /\ nth_error d j = Some (pres s) /\
    nth_error e j = Some (t s).
Proof.
  induction a as [|x a IH]; intros b c d e j s.
  - simpl. destruct j; split; try discriminate; intros [H _]; discriminate.
  - destruct b as [|y b], c as [|z c], d as [|u d], e as [|v e];
      try (simpl; destruct j; split; [discriminate| |discriminate|];
           intros (_ & H2 & H3 & H4 & H5); discriminate).
    destruct j as [|j]; simpl.
    + destruct s as [s1 s2 s3 s4 s5]; simpl. split.
      * intros H. injection H as -> -> -> -> ->. repeat split.
      * intros (H1 & H2 & H3 & H4 & H5).
        injection H1 as ->. injection H2 as ->. injection H3 as ->.
        injection H4 as ->. injection H5 as ->. reflexivity.
    + apply IH.
Qed.

Lemma zip5_length (a : list float) :
  forall b c d e,
    List.length (zip5 a b c d e)
    = Nat.min (List.length a)
        (Nat.min (List.length b)
           (Nat.min (List.length c)
              (Nat.min (List.length d) (List.length e)))).
Proof.
  induction a as [|x a IH]; intros [|y b] [|z c] [|u d] [|v e]; simpl;
    try reflexivity; try (now rewrite ?Nat.min_0_r).
  now rewrite IH.
Qed.

Lemma flatten_length (w : nat) (rows : ndarray float) :
  Forall (fun r => List.length r = w) rows ->
  List.length (flatten rows) = List.length rows * w.
Proof.
  unfold flatten. induction 1 as [|r rows Hr _ IH]; simpl; [reflexivity|].
  rewrite length_app, IH, Hr. reflexivity.
Qed.

Lemma take_rows_length (A : Type) (a : ndarray A) (idx : list nat) :
  forall rows, take_rows a idx = Some rows ->
               List.length rows = List.length idx.
Proof.
  intros rows H. apply take_rows_Forall2 in H.
  symmetry. eapply Forall2_length; eassumption.
Qed.

Lemma take_rows_none (A : Type) (a : ndarray A) (idx : list nat) :
  take_rows a idx = None <-> Exists (fun i => List.length a <= i) idx.
Proof.
  induction idx as [|i rest IH]; simpl.
  - split; [discriminate|]. intros H. inversion H.
  - destruct (nth_error a i) as [r|] eqn:Hi.
    + assert (Hlt : i < List.length a)
        by (apply nth_error_Some; congruence).
      destruct (take_rows a rest) as [rs|].
      * split; [discriminate|]. intros H. exfalso.
        inversion H as [? ? Hle|? ? Hex]; subst; [lia|].
        apply IH in Hex. discriminate.
      * split; [|reflexivity]. intros _. right. now apply IH.
    + apply nth_error_None in Hi. split; [|reflexivity].
      intros _. now left.
Qed.

Lemma select_failed (a : ndarray float) (idx : list nat) :
  select a idx = Failed IndexError
  <-> Exists (fun i => List.length a <= i) idx.
Proof.
  rewrite <- take_rows_none. unfold select.
  destruct (take_rows a idx); simpl; split; congruence.
Qed.

(** In five rows of one width, the entries of one column form a
    candidate. *)
Lemma zip5_flatten_complete (w : nat) (a1 a2 a3 a4 a5 : ndarray float)
      (idx : list nat) :
  forall r1 r2 r3 r4 r5,
    Forall2 (picked a1) idx r1 -> Forall2 (picked a2) idx r2 ->
    Forall2 (picked a3) idx r3 -> Forall2 (picked a4) idx r4 ->
    Forall2 (picked a5) idx r5 ->
    Forall (fun r => List.length r = w) r1 ->
    Forall (fun r => List.length r = w) r2 ->
    Forall (fun r => List.length r = w) r3 ->
    Forall (fun r => List.length r = w) r4 ->
    Forall (fun r => List.length r = w) r5 ->
    forall i j s,
      In i idx ->
      cell a1 i j = Some (lat s) -> cell a2 i j = Some (lon s) ->
      cell a3 i j = Some (wind s) -> cell a4 i j = Some (pres s) ->
      cell a5 i j = Some (t s) ->
      In s (zip5 (flatten r1) (flatten r2) (flatten r3) (flatten r4)
                 (flatten r5)).
Proof.
  induction idx as [|i0 idx IH]; intros r1 r2 r3 r4 r5 F1 F2 F3 F4 F5
    W1 W2 W3 W4 W5 i j s Hi C1 C2 C3 C4 C5; [contradiction|].
  inversion F1 as [|? x1 ? t1 P1 F1']; subst.
  inversion F2 as [|? x2 ? t2 P2 F2']; subst.
  inversion F3 as [|? x3 ? t3 P3 F3']; subst.
  inversion F4 as [|? x4 ? t4 P4 F4']; subst.
  inversion F5 as [|? x5 ? t5 P5 F5']; subst.
  inversion W1; inversion W2; inversion W3; inversion W4; inversion W5;
    subst.
  unfold flatten. simpl. rewrite zip5_app by congruence.
  apply in_or_app. destruct Hi as [->|Hi].
  - left. unfold picked in *. unfold cell in *.
    rewrite P1 in C1. rewrite P2 in C2. rewrite P3 in C3.
    rewrite P4 in C4. rewrite P5 in C5.
    eapply nth_error_In. apply zip5_nth. repeat split; eassumption.
  - right. eapply IH; eassumption.
Qed.

End ZipFacts.

(* ================================================================== *)
(** ** Further facts about the conversion of day offsets *)

Module DateFacts.
Import Datetime.

Local Open Scope Z_scope.

Lemma modf_outcome (x : float) :
  (exists p, modf x = Returned p) \/ (exists e, modf x = Failed e).
Proof.
  unfold modf. destruct (Prim2SF x); eauto.
Qed.

Lemma timedelta_days_outcome (x : float) :
  (exists d, timedelta_days x = Returned d)
  \/ (exists e, timedelta_days x = Failed e).
Proof.
  unfold timedelta_days.
  destruct (modf_outcome x) as [[p ->]|[e ->]]; cbn [bind]; [|eauto].
  destruct (PrimFloat.eqb (snd p) 0); cbn [bind].
  - destruct (_ && _); eauto.
  - destruct (modf_outcome (86400000000 * snd p)%float) as [[q ->]|[e ->]];
      cbn [bind]; [|eauto].
    destruct (_ && _); eauto.
Qed.

Lemma add_outcome (d : datetime) (other : timedelta) :
  (exists r, add d other = Returned r)
  \/ add d other = Failed OverflowError.
Proof.
  unfold add. destruct (_ && _); [|now right].
  destruct (ord2ymd _) as [[y m] dd]. eauto.
Qed.

(** The conversion of one offset returns a date or raises; it never ends
    the host. *)
Lemma to_date_outcome (x : float) :
  (exists d, to_date x = Returned d) \/ (exists e, to_date x = Failed e).
Proof.
  unfold to_date.
  destruct (timedelta_days_outcome x) as [[d ->]|[e ->]]; cbn [bind];
    [|eauto].
  destruct (add_outcome start_date d) as [[r ->]| ->]; eauto.
Qed.

Lemma to_date_nan (x : float) :
  PrimFloat.is_nan x = true -> to_date x = Failed ValueError.
Proof.
  intros H. unfold to_date, timedelta_days, modf, Prim2SF. now rewrite H.
Qed.

Lemma filtered_dates_failed (ts : list float) (x : float) :
  In x ts -> (exists e, to_date x = Failed e) ->
  exists e, filtered_dates ts = Failed e.
Proof.
  induction ts as [|y ts IH]; intros Hin Hx; [contradiction|].
  simpl. destruct (to_date_outcome y) as [[d Hd]|[e He]].
  - rewrite Hd. cbn [bind].
    destruct Hin as [->|Hin].
    + destruct Hx as [e He]. congruence.
    + destruct (IH Hin Hx) as [e ->]. cbn [bind]. eauto.
  - rewrite He. cbn [bind]. eauto.
Qed.

Lemma filtered_dates_aligned (ts : list float) :
  forall ds, filtered_dates ts = Returned ds ->
             Forall2 (fun x d => to_date x = Returned d) ts ds.
Proof.
  induction ts as [|x ts IH]; simpl; intros ds H.
  - injection H as <-. constructor.
  - destruct (to_date x) as [d| |] eqn:Hd; cbn [bind] in H; try discriminate.
    destruct (filtered_dates ts) as [ds'| |]; cbn [bind] in H;
      try discriminate.
    injection H as <-. constructor; auto.
Qed.

Lemma filtered_dates_total (ts : list float) :
  Forall (fun x => exists d, to_date x = Returned d) ts ->
  exists ds, filtered_dates ts = Returned ds.
Proof.
  induction 1 as [|x ts [d Hd] _ [ds IH]]; simpl; [eauto|].
  rewrite Hd, IH. cbn [bind]. eauto.
Qed.

(** A whole number of days that leaves the range of [datetime] cannot be
    converted. *)
Lemma to_date_whole_overflow (x : float) (n : Z) :
  has_value x n -> ~ (0 < 678576 + n <= MAXORDINAL) ->
  to_date x = Failed OverflowError.
Proof.
  intros Hv Hr. unfold MAXORDINAL in Hr.
  destruct (Z_le_dec (-999999999) n) as [Hlo|Hlo];
    [destruct (Z_le_dec n 999999999) as [Hhi|Hhi]|].
  - unfold to_date.
    rewrite (@DatetimeFacts.timedelta_days_whole x n Hv) by lia.
    cbn [bind]. unfold add. rewrite DatetimeFacts.start_ordinal.
    cbn [hour minute second microsecond start_date date_at total_us].
    replace (678576 * US_PER_DAY
             + ((((0 * 60 + 0) * 60 + 0) * US_PER_SECOND) + 0)
             + n * US_PER_DAY) with ((678576 + n) * US_PER_DAY) by ring.
    rewrite Z.div_mul by (unfold US_PER_DAY; lia).
    unfold MAXORDINAL.
    destruct (Z.ltb_spec 0 (678576 + n));
      destruct (Z.leb_spec (678576 + n) 3652059); try reflexivity; lia.
  - destruct (@DatetimeFacts.modf_whole x n Hv) as [f [Hm Hf]].
    unfold to_date, timedelta_days. rewrite Hm. cbn [bind fst snd].
    rewrite Hf. cbn [bind]. unfold td_days. cbn [total_us].
    rewrite Z.div_mul by (unfold US_PER_DAY; lia).
    destruct (Z.leb_spec n 999999999); [lia|].
    now rewrite andb_false_r.
  - destruct (@DatetimeFacts.modf_whole x n Hv) as [f [Hm Hf]].
    unfold to_date, timedelta_days. rewrite Hm. cbn [bind fst snd].
    rewrite Hf. cbn [bind]. unfold td_days. cbn [total_us].
    rewrite Z.div_mul by (unfold US_PER_DAY; lia).
    destruct (Z.leb_spec (-999999999) n); [lia|]. reflexivity.
Qed.

End DateFacts.

(* ================================================================== *)
(** ** Further properties of the notebook's cells *)

Local Open Scope float_scope.

(** X1: when the cells of an identifier row spell an identifier with blanks
    before and after it, and the identifier has no blank at its ends, the
    decoding returns the identifier. *)
Theorem decode_removes_padding (row : sid_row) (pre s post : string) :
  Str.join row = (pre ++ s ++ post)%string ->
  blank pre = true -> blank post = true -> ~ Str.padded s ->
  decode_sid row = s.
Proof.
  intros Hj Hpre Hpost Hs. unfold decode_sid. rewrite Hj.
  now apply StripFacts.strip_padding.
Qed.

Lemma decode_removes_padding_witness :
  decode_sid (Sample.cells "  2012166N09269 ") = "2012166N09269".
Proof.
  apply (@decode_removes_padding _ "  " "2012166N09269" " ");
    try (vm_compute; reflexivity).
  intros [[c [H1 H2]]|[c [H1 H2]]]; vm_compute in H1; injection H1 as <-;
    vm_compute in H2; discriminate H2.
Defined.

(** X2: the positions selected by [np.where] are exactly the positions whose
    decoded identifier equals the target, listed in strictly ascending
    order. *)
Theorem storm_indices_exact (nc : NcFile) (target : string) :
  (forall i, In i (Nc.storm_indices nc target)
             <-> nth_error (Nc.storm_ids nc) i = Some target)
  /\ StronglySorted lt (Nc.storm_indices nc target).
Proof.
  split; [intros i; apply WhereFacts.storm_indices_In|].
  apply WhereFacts.where_from_ascending.
Qed.

(** X3: the membership test of the guard and the selection of positions
    agree: the guard lets the run continue exactly when [np.where] selects
    at least one position. *)
Theorem guard_agrees_with_selection (nc : NcFile) (target : string) :
  Nc.verify nc target = Returned tt <-> Nc.storm_indices nc target <> [].
Proof.
  unfold Nc.verify. split.
  - intros H E.
    destruct (contains (Nc.storm_ids nc) target) eqn:Hc; [|discriminate].
    apply contains_In in Hc. apply In_nth_error in Hc. destruct Hc as [i Hi].
    apply WhereFacts.storm_indices_In in Hi. rewrite E in Hi. contradiction.
  - intros H. destruct (Nc.storm_indices nc target) as [|i rest] eqn:E;
      [congruence|].
    assert (Hi : In i (Nc.storm_indices nc target)) by (rewrite E; now left).
    apply WhereFacts.storm_indices_In in Hi. apply nth_error_In in Hi.
    apply contains_In in Hi. now rewrite Hi.
Qed.

(** X4: under the loader's contract no valid observation of the target
    storm is lost: the content of every position whose decoded identifier is
    the target and that passes the four tests is in the Track. *)
Theorem valid_sample_reaches_track
        (w : nat) (nc : NcFile) (target : string) (i j : nat) (s : Nc.sample) :
  Nc.shape_ok w nc ->
  nth_error (Nc.storm_ids nc) i = Some target ->
  Nc.at_position nc i j s ->
  Nc.keep s = true ->
  exists track, Nc.extract nc target = Returned track /\ In s track.
Proof.
  intros Hs Hi (C1 & C2 & C3 & C4 & C5) Hk.
  assert (Hin : In target (Nc.storm_ids nc))
    by (eapply nth_error_In; eassumption).
  destruct (NcFacts.extract_filtered_total target Hs) as [f Hf].
  destruct (NcFacts.extract_found _ _ Hin Hf) as [He _].
  exists (Nc.valid_data f). split; [assumption|].
  unfold Nc.valid_data. apply filter_In. split; [|assumption].
  destruct Hs as (H1 & H2 & H3 & H4 & H5).
  apply NcFacts.extract_filtered_inv in Hf.
  destruct Hf as (r1 & r2 & r3 & r4 & r5 & T1 & T2 & T3 & T4 & T5 & ->).
  unfold Nc.zipped; simpl.
  eapply (@ZipFacts.zip5_flatten_complete w (var_lat nc) (var_lon nc)
            (var_wmo_wind nc) (var_wmo_pres nc) (var_time nc)
            (Nc.storm_indices nc target));
    try (apply take_rows_Forall2; eassumption);
    try (eapply take_rows_width; [|eassumption];
         match goal with H : Nc.rows_ok _ _ _ |- _ => apply H end);
    try eassumption.
  now apply WhereFacts.storm_indices_In.
Qed.

Lemma valid_sample_reaches_track_witness :
  exists track,
    Nc.extract Sample.nc "2012166N09269" = Returned track
    /\ In (Nc.mkSample 10 (-92) 45 1000 56092.5) track.
Proof.
  apply (@valid_sample_reaches_track 2 Sample.nc "2012166N09269" 1 0);
    try (vm_compute; reflexivity).
  - repeat split; repeat constructor.
  - repeat split.
Defined.

(** X5: under the loader's contract the number of candidates is the number
    of selected positions times the width of a row. *)
Theorem candidates_count (w : nat) (nc : NcFile) (target : string) :
  Nc.shape_ok w nc -> In target (Nc.storm_ids nc) ->
  exists cands,
    Nc.candidates nc target = Returned cands
    /\ List.length cands
       = (List.length (Nc.storm_indices nc target) * w)%nat.
Proof.
  intros Hs Hin.
  destruct (NcFacts.extract_filtered_total target Hs) as [f Hf].
  destruct (NcFacts.extract_found _ _ Hin Hf) as [_ Hc].
  exists (Nc.zipped f). split; [assumption|].
  destruct Hs as (H1 & H2 & H3 & H4 & H5).
  apply NcFacts.extract_filtered_inv in Hf.
  destruct Hf as (r1 & r2 & r3 & r4 & r5 & T1 & T2 & T3 & T4 & T5 & ->).
  unfold Nc.zipped; simpl. rewrite ZipFacts.zip5_length.
  rewrite !(@ZipFacts.flatten_length w)
    by (eapply take_rows_width; [|eassumption];
        match goal with H : Nc.rows_ok _ _ _ |- _ => apply H end).
  rewrite (ZipFacts.take_rows_length _ _ T1), (ZipFacts.take_rows_length _ _ T2),
    (ZipFacts.take_rows_length _ _ T3), (ZipFacts.take_rows_length _ _ T4),
    (ZipFacts.take_rows_length _ _ T5).
  now rewrite !Nat.min_id.
Qed.

Lemma candidates_count_witness :
  exists cands,
    Nc.candidates Sample.nc "2012166N09269" = Returned cands
    /\ List.length cands
       = (List.length (Nc.storm_indices Sample.nc "2012166N09269") * 2)%nat.
Proof.
  apply (@candidates_count 2 Sample.nc "2012166N09269").
  - repeat split; repeat constructor.
  - vm_compute. left. reflexivity.
Defined.

Lemma extract_filtered_failed (nc : NcFile) (target : string) :
  Nc.extract_filtered nc target = Failed IndexError
  <-> Exists (fun i => List.length (var_lat nc) <= i
                       \/ List.length (var_lon nc) <= i
                       \/ List.length (var_wmo_wind nc) <= i
                       \/ List.length (var_wmo_pres nc) <= i
                       \/ List.length (var_time nc) <= i)%nat
             (Nc.storm_indices nc target).
Proof.
  set (idx := Nc.storm_indices nc target).
  assert (Hsplit :
    Exists (fun i => List.length (var_lat nc) <= i
                     \/ List.length (var_lon nc) <= i
                     \/ List.length (var_wmo_wind nc) <= i
                     \/ List.length (var_wmo_pres nc) <= i
                     \/ List.length (var_time nc) <= i)%nat idx
    <-> Nc.select (var_lat nc) idx = Failed IndexError
        \/ Nc.select (var_lon nc) idx = Failed IndexError
        \/ Nc.select (var_wmo_wind nc) idx = Failed IndexError
        \/ Nc.select (var_wmo_pres nc) idx = Failed IndexError
        \/ Nc.select (var_time nc) idx = Failed IndexError).
  { rewrite !ZipFacts.select_failed, !Exists_exists. split.
    - intros [i [Hi [H|[H|[H|[H|H]]]]]]; eauto 10.
    - intros [[i [Hi H]]|[[i [Hi H]]|[[i [Hi H]]|[[i [Hi H]]|[i [Hi H]]]]]];
        exists i; tauto. }
  rewrite Hsplit. unfold Nc.extract_filtered. fold idx.
  destruct (NcFacts.select_outcome (var_lat nc) idx) as [[l1 E1]|E1];
    rewrite E1; cbn [bind]; [|tauto].
  destruct (NcFacts.select_outcome (var_lon nc) idx) as [[l2 E2]|E2];
    rewrite E2; cbn [bind]; [|tauto].
  destruct (NcFacts.select_outcome (var_wmo_wind nc) idx) as [[l3 E3]|E3];
    rewrite E3; cbn [bind]; [|tauto].
  destruct (NcFacts.select_outcome (var_wmo_pres nc) idx) as [[l4 E4]|E4];
    rewrite E4; cbn [bind]; [|tauto].
  destruct (NcFacts.select_outcome (var_time nc) idx) as [[l5 E5]|E5];
    rewrite E5; cbn [bind]; [|tauto].
  split; [discriminate|].
  intros [H|[H|[H|[H|H]]]]; discriminate.
Qed.

(** X6: for a target that is among the decoded identifiers, the extraction
    raises [IndexError] exactly when one of the five arrays has no row at a
    position whose decoded identifier is the target. *)
Theorem index_error_when_a_row_is_missing (nc : NcFile) (target : string) :
  In target (Nc.storm_ids nc) ->
  (Nc.extract nc target = Failed IndexError
   <-> exists i,
         nth_error (Nc.storm_ids nc) i = Some target
         /\ (List.length (var_lat nc) <= i
             \/ List.length (var_lon nc) <= i
             \/ List.length (var_wmo_wind nc) <= i
             \/ List.length (var_wmo_pres nc) <= i
             \/ List.length (var_time nc) <= i)%nat).
Proof.
  intros Hin.
  assert (He : Nc.extract nc target = Failed IndexError
               <-> Nc.extract_filtered nc target = Failed IndexError).
  { apply contains_In in Hin. unfold Nc.extract, Nc.verify. rewrite Hin.
    cbn [bind].
    destruct (NcFacts.extract_filtered_outcome nc target) as [[f ->]| ->];
      cbn [bind]; split; congruence. }
  rewrite He, extract_filtered_failed, Exists_exists.
  split; intros [i [Hi H]]; exists i; split; try assumption;
    now apply WhereFacts.storm_indices_In.
Qed.

Lemma index_error_when_a_row_is_missing_witness :
  Nc.extract (mkNc [Sample.cells "1999001N10200"; Sample.cells "2012166N09269"]
                   [[20; 21]] [[100; 101]; [-91; -91.5]]
                   [[30; 30]; [40; 42]] [[990; 990]; [1004; 1002]]
                   [[51179; 51179.25]; [56092; 56092.25]])
             "2012166N09269"
  = Failed IndexError.
Proof.
  apply index_error_when_a_row_is_missing.
  - vm_compute. right. left. reflexivity.
  - exists 1%nat. split; [vm_compute; reflexivity|]. left. simpl. lia.
Defined.

(** X7: what the filter leaves in the five [filtered_*] names.  With a
    non-empty [valid_data] they hold its columns: they have its length, zip
    back to it, and contain no [NaN] coordinate and no [-9999] wind or
    pressure.  With an empty [valid_data] they are left as they were. *)
Theorem filter_rebinds_names (f : Nc.filtered) :
  let v := Nc.valid_data f in
  let f' := snd (Nc.refilter f) in
  (v = [] -> f' = f)
  /\ (v <> [] ->
      Nc.filtered_lats f' = map Nc.lat v
      /\ Nc.filtered_lons f' = map Nc.lon v
      /\ Nc.filtered_winds f' = map Nc.wind v
      /\ Nc.filtered_pressures f' = map Nc.pres v
      /\ Nc.filtered_times f' = map Nc.t v
      /\ Nc.zipped f' = v
      /\ Forall (fun x => PrimFloat.is_nan x = false) (Nc.filtered_lats f')
      /\ Forall (fun x => PrimFloat.is_nan x = false) (Nc.filtered_lons f')
      /\ Forall (fun x => PrimFloat.eqb x (-9999) = false)
                (Nc.filtered_winds f')
      /\ Forall (fun x => PrimFloat.eqb x (-9999) = false)
                (Nc.filtered_pressures f')).
Proof.
  intros v f'. subst v f'. unfold Nc.refilter.
  destruct (Nc.valid_data f) as [|s v] eqn:E; cbn [snd].
  - split; [reflexivity|congruence].
  - split; [discriminate|]. intros _.
    assert (Hk : Forall (fun s => Nc.keep s = true) (s :: v)).
    { rewrite <- E. unfold Nc.valid_data. apply filter_Forall_true. }
    repeat split; try reflexivity.
    + apply NcFacts.zip5_unzip5.
    + cbn [Nc.unzip5 Nc.filtered_lats]. apply Forall_map.
      eapply Forall_impl; [|exact Hk]. intros a Ha.
      apply Track.keep_true in Ha. tauto.
    + cbn [Nc.unzip5 Nc.filtered_lons]. apply Forall_map.
      eapply Forall_impl; [|exact Hk]. intros a Ha.
      apply Track.keep_true in Ha. tauto.
    + cbn [Nc.unzip5 Nc.filtered_winds]. apply Forall_map.
      eapply Forall_impl; [|exact Hk]. intros a Ha.
      apply Track.keep_true in Ha. tauto.
    + cbn [Nc.unzip5 Nc.filtered_pressures]. apply Forall_map.
      eapply Forall_impl; [|exact Hk]. intros a Ha.
      apply Track.keep_true in Ha. tauto.
Qed.

Lemma filter_rebinds_names_witness :
  Nc.filtered_winds
    (snd (Nc.refilter (Nc.mkFiltered [9; 9.5] [-91; -91.5] [-9999; 42]
                                     [1004; 1002] [56092; 56092.25])))
  = map Nc.wind
        (Nc.valid_data (Nc.mkFiltered [9; 9.5] [-91; -91.5] [-9999; 42]
                                      [1004; 1002] [56092; 56092.25])).
Proof.
  apply (proj2 (filter_rebinds_names
                  (Nc.mkFiltered [9; 9.5] [-91; -91.5] [-9999; 42]
                                 [1004; 1002] [56092; 56092.25]))).
  vm_compute. discriminate.
Defined.

(** X8: [zip] pairs the five sequences position by position and stops at
    the shortest: the candidate at a position is made of the entries of all
    five at that position, and there are as many candidates as the shortest
    sequence has entries. *)
Theorem candidates_are_positional (f : Nc.filtered) :
  (forall j s,
      nth_error (Nc.zipped f) j = Some s <->
      nth_error (Nc.filtered_lats f) j = Some (Nc.lat s)
      /\ nth_error (Nc.filtered_lons f) j = Some (Nc.lon s)
      /\ nth_error (Nc.filtered_winds f) j = Some (Nc.wind s)
      /\ nth_error (Nc.filtered_pressures f) j = Some (Nc.pres s)
      /\ nth_error (Nc.filtered_times f) j = Some (Nc.t s))
  /\ List.length (Nc.zipped f)
     = Nat.min (List.length (Nc.filtered_lats f))
         (Nat.min (List.length (Nc.filtered_lons f))
            (Nat.min (List.length (Nc.filtered_winds f))
               (Nat.min (List.length (Nc.filtered_pressures f))
                        (List.length (Nc.filtered_times f)))))
  /\ (List.length (Nc.valid_data f) <= List.length (Nc.zipped f))%nat.
Proof.
  split; [|split].
  - intros j s. apply ZipFacts.zip5_nth.
  - apply ZipFacts.zip5_length.
  - apply filter_length_le.
Qed.

(** X9: the filter does not look at the time of a sample, so a sample with a
    [NaN] time and valid coordinates, wind and pressure stays in
    [valid_data]; the conversion of the times to dates then raises instead
    of returning the dates. *)
Theorem nan_time_is_kept_and_stops_the_dates :
  (forall a b c d t1 t2,
      Nc.keep (Nc.mkSample a b c d t1) = Nc.keep (Nc.mkSample a b c d t2))
  /\ (forall f s,
         In s (Nc.valid_data f) -> PrimFloat.is_nan (Nc.t s) = true ->
         exists e,
           Datetime.filtered_dates (Nc.filtered_times (snd (Nc.refilter f)))
           = Failed e
           /\ Plot.series f = Failed e).
Proof.
  split; [reflexivity|].
  intros f s Hin Hnan.
  assert (Hne : Nc.valid_data f <> []) by (intros E; rewrite E in Hin; inversion Hin).
  destruct (filter_rebinds_names f) as [_ H]. destruct (H Hne) as (_ & _ & _ & _ & Ht & _).
  assert (Hd : exists e, Datetime.filtered_dates
                           (Nc.filtered_times (snd (Nc.refilter f))) = Failed e).
  { apply DateFacts.filtered_dates_failed with (x := Nc.t s).
    - rewrite Ht. now apply in_map.
    - exists ValueError. now apply DateFacts.to_date_nan. }
  destruct Hd as [e He]. exists e. split; [assumption|].
  unfold Plot.series. now rewrite He.
Qed.

Lemma nan_time_is_kept_and_stops_the_dates_witness :
  exists e,
    Datetime.filtered_dates
      (Nc.filtered_times
         (snd (Nc.refilter (Nc.mkFiltered [9] [-91] [40] [1004] [nan]))))
    = Failed e
    /\ Plot.series (Nc.mkFiltered [9] [-91] [40] [1004] [nan]) = Failed e.
Proof.
  apply (proj2 nan_time_is_kept_and_stops_the_dates
               (Nc.mkFiltered [9] [-91] [40] [1004] [nan])
               (Nc.mkSample 9 (-91) 40 1004 nan)).
  - vm_compute. left. reflexivity.
  - reflexivity.
Defined.

(** X10: what the time-series figure is given.  When the dates are
    computed and [valid_data] is not empty, the dates, the winds and the
    pressures are the columns of [valid_data], of one length, each date the
    conversion of the time at its position, and no wind or pressure is
    [-9999].  When [valid_data] is empty the figure is given the unfiltered
    winds, pressures and times of the selection. *)
Theorem series_of_the_figure
        (f : Nc.filtered) (dates : list Datetime.datetime)
        (winds pressures : list float) :
  Plot.series f = Returned (dates, winds, pressures) ->
  (Nc.valid_data f <> [] ->
   winds = map Nc.wind (Nc.valid_data f)
   /\ pressures = map Nc.pres (Nc.valid_data f)
   /\ Forall2 (fun s d => Datetime.to_date (Nc.t s) = Returned d)
              (Nc.valid_data f) dates
   /\ List.length dates = List.length winds
   /\ List.length dates = List.length pressures
   /\ Forall (fun x => PrimFloat.eqb x (-9999) = false) winds
   /\ Forall (fun x => PrimFloat.eqb x (-9999) = false) pressures)
  /\ (Nc.valid_data f = [] ->
      winds = Nc.filtered_winds f
      /\ pressures = Nc.filtered_pressures f
      /\ Forall2 (fun x d => Datetime.to_date x = Returned d)
                 (Nc.filtered_times f) dates).
Proof.
  unfold Plot.series. intros H.
  destruct (Datetime.filtered_dates (Nc.filtered_times (snd (Nc.refilter f))))
    as [ds| |] eqn:Hd; cbn [bind] in H; try discriminate.
  injection H as -> <- <-.
  apply DateFacts.filtered_dates_aligned in Hd.
  destruct (filter_rebinds_names f) as [Hempty Hfull].
  split.
  - intros Hne.
    destruct (Hfull Hne) as (_ & _ & Hw & Hp & Ht & _ & _ & _ & Fw & Fp).
    rewrite Ht in Hd.
    assert (Hd' : Forall2 (fun s d => Datetime.to_date (Nc.t s) = Returned d)
                          (Nc.valid_data f) dates).
    { clear - Hd. remember (map Nc.t (Nc.valid_data f)) as ts eqn:E.
      revert E. generalize (Nc.valid_data f).
      induction Hd as [|x d ts ds Hx _ IH]; intros [|s v] E;
        try discriminate; [constructor|].
      simpl in E. injection E as -> ->. constructor; auto. }
    pose proof (Forall2_length Hd') as Hlen.
    split; [exact Hw|]. split; [exact Hp|]. split; [exact Hd'|].
    split; [rewrite Hw, length_map; congruence|].
    split; [rewrite Hp, length_map; congruence|].
    split; assumption.
  - intros He. rewrite (Hempty He) in *. repeat split; assumption.
Qed.

Lemma series_of_the_figure_witness :
  [-9999; -9999] = Nc.filtered_winds
                     (Nc.mkFiltered [9; 9.5] [-91; -91.5] [-9999; -9999]
                                    [1004; 1002] [56092; 56092.25])
  /\ [1004; 1002] = Nc.filtered_pressures
                      (Nc.mkFiltered [9; 9.5] [-91; -91.5] [-9999; -9999]
                                     [1004; 1002] [56092; 56092.25])
  /\ Forall2 (fun x d => Datetime.to_date x = Returned d)
             (Nc.filtered_times
                (Nc.mkFiltered [9; 9.5] [-91; -91.5] [-9999; -9999]
                               [1004; 1002] [56092; 56092.25]))
             [Datetime.mkDatetime 2012 6 14 0 0 0 0;
              Datetime.mkDatetime 2012 6 14 6 0 0 0].
Proof.
  apply (proj2 (@series_of_the_figure
                  (Nc.mkFiltered [9; 9.5] [-91; -91.5] [-9999; -9999]
                                 [1004; 1002] [56092; 56092.25])
                  [Datetime.mkDatetime 2012 6 14 0 0 0 0;
                   Datetime.mkDatetime 2012 6 14 6 0 0 0]
                  [-9999; -9999] [1004; 1002]
                  ltac:(vm_compute; reflexivity))).
  vm_compute. reflexivity.
Defined.

(** X11: how the conversion of one offset fails.  A [NaN] offset raises
    [ValueError]; a whole number of days that leads before 0001-01-01 or
    past 9999-12-31 raises [OverflowError]; and no offset ends the host. *)
Theorem to_date_failures :
  (forall x, PrimFloat.is_nan x = true ->
             Datetime.to_date x = Failed ValueError)
  /\ (forall x n,
         has_value x n ->
         ~ (0 < Datetime.toordinal Datetime.start_date + n
            <= Datetime.MAXORDINAL)%Z ->
         Datetime.to_date x = Failed OverflowError)
  /\ (forall x, typed_result (Datetime.to_date x)).
Proof.
  split; [apply DateFacts.to_date_nan|]. split.
  - intros x n Hv Hr. rewrite DatetimeFacts.start_ordinal in Hr.
    now apply DateFacts.to_date_whole_overflow with (n := n).
  - intros x. destruct (DateFacts.to_date_outcome x) as [[d ->]|[e ->]];
      exact I.
Qed.

Lemma to_date_failures_witness :
  Datetime.to_date (-678576) = Failed OverflowError.
Proof.
  apply (proj1 (proj2 to_date_failures) (-678576) (-678576)%Z).
  - vm_compute. reflexivity.
  - vm_compute. intros [H _]. discriminate H.
Defined.

Lemma filter_comm (A : Type) (p q : A -> bool) (l : list A) :
  filter p (filter q l) = filter q (filter p l).
Proof.
  induction l as [|x l IH]; simpl; [reflexivity|].
  destruct (p x) eqn:Hp, (q x) eqn:Hq; simpl; rewrite ?Hp, ?Hq, IH;
    reflexivity.
Qed.


Lemma add_markers_all (points : list (float * float)) :
  Plot.add_markers points = points.
Proof.
  unfold Plot.add_markers.
  assert (H : forall init : list (float * float),
             fold_left (fun added p => (added ++ [p])%list) points init
             = (init ++ points)%list).
  { induction points as [|p l IH]; intros init; simpl.
    - now rewrite app_nil_r.
    - rewrite IH, <- app_assoc. reflexivity. }
  apply H.
Qed.

Lemma combine_columns (v : list Nc.sample) :
  combine (map Nc.lat v) (map Nc.lon v) = map (fun s => (Nc.lat s, Nc.lon s)) v.
Proof. induction v as [|s v IH]; simpl; [reflexivity|now rewrite IH]. Qed.



Lemma zip5_flatten_rows (w : nat) (nc : NcFile) (idx : list nat) :
  forall r1 r2 r3 r4 r5,
    Forall2 (Nc.picked (var_lat nc)) idx r1 ->
    Forall2 (Nc.picked (var_lon nc)) idx r2 ->
    Forall2 (Nc.picked (var_wmo_wind nc)) idx r3 ->
    Forall2 (Nc.picked (var_wmo_pres nc)) idx r4 ->
    Forall2 (Nc.picked (var_time nc)) idx r5 ->
    Forall (fun r => List.length r = w) r1 ->
    Forall (fun r => List.length r = w) r2 ->
    Forall (fun r => List.length r = w) r3 ->
    Forall (fun r => List.length r = w) r4 ->
    Forall (fun r => List.length r = w) r5 ->
    Nc.zip5 (flatten r1) (flatten r2) (flatten r3) (flatten r4) (flatten r5)
    = flat_map (row_samples nc) idx.
Proof.
  induction idx as [|i idx IH]; intros r1 r2 r3 r4 r5 F1 F2 F3 F4 F5
    W1 W2 W3 W4 W5.
  - inversion F1; subst. reflexivity.
  - inversion F1 as [|? x1 ? t1 P1 F1']; subst.
    inversion F2 as [|? x2 ? t2 P2 F2']; subst.
    inversion F3 as [|? x3 ? t3 P3 F3']; subst.
    inversion F4 as [|? x4 ? t4 P4 F4']; subst.
    inversion F5 as [|? x5 ? t5 P5 F5']; subst.
    inversion W1; inversion W2; inversion W3; inversion W4; inversion W5;
      subst.
    unfold flatten. simpl. rewrite NcFacts.zip5_app by congruence.
    f_equal; [|now apply IH].
    unfold row_samples, Nc.picked in *.
    now rewrite (nth_error_nth _ _ _ P1), (nth_error_nth _ _ _ P2),
      (nth_error_nth _ _ _ P3), (nth_error_nth _ _ _ P4),
      (nth_error_nth _ _ _ P5).
Qed.

(** X14: under the loader's contract the Track of a target that is among
    the decoded identifiers is made storm row by storm row, in ascending
    position, and column by column within a row, of the samples that pass
    the four tests. *)
Theorem track_is_row_major (w : nat) (nc : NcFile) (target : string) :
  Nc.shape_ok w nc -> In target (Nc.storm_ids nc) ->
  Nc.extract nc target
  = Returned (filter Nc.keep
                (flat_map (row_samples nc) (Nc.storm_indices nc target))).
Proof.
  intros Hs Hin.
  destruct (NcFacts.extract_filtered_total target Hs) as [f Hf].
  destruct (NcFacts.extract_found _ _ Hin Hf) as [He _].
  rewrite He. unfold Nc.valid_data. do 2 f_equal.
  destruct Hs as (H1 & H2 & H3 & H4 & H5).
  apply NcFacts.extract_filtered_inv in Hf.
  destruct Hf as (r1 & r2 & r3 & r4 & r5 & T1 & T2 & T3 & T4 & T5 & ->).
  unfold Nc.zipped; simpl.
  apply (@zip5_flatten_rows w);
    try (apply take_rows_Forall2; assumption);
    eapply take_rows_width; try eassumption;
    match goal with H : Nc.rows_ok _ _ _ |- _ => apply H end.
Qed.

Lemma track_is_row_major_witness :
  Nc.extract Sample.nc "2012166N09269"
  = Returned (filter Nc.keep
                (flat_map (row_samples Sample.nc)
                          (Nc.storm_indices Sample.nc "2012166N09269"))).
Proof.
  apply (@track_is_row_major 2).
  - repeat split; repeat constructor.
  - vm_compute. left. reflexivity.
Defined.
